(** * vscode-shrek-image-cycler: the image cycle controller of [src/extension.ts]

    The extension keeps one module-level timer handle ([intervalId]), a
    [Settings] object in the host's key-value store ([context.globalState]) and
    talks to the host through a handful of calls: [registerCommand],
    [createWebviewPanel], [setInterval]/[clearInterval], [Math.random] and the
    three [show...Message] notifications.

    The embedding is shallow.  The host is a record ([State]) holding the
    store, the table of live timers, the stream of random draws and the log of
    every host call in the order the code makes it; each function of
    [extension.ts] is a computation in the state monad [M] over that record.
    JavaScript numbers are IEEE-754 binary64 values ([Number.number]), with the
    Standard Library's executable specification of their arithmetic. *)

From Stdlib Require Import ZArith Lia Floats.SpecFloat.
From Stdlib Require DecimalString DecimalN DecimalPos.
From stdpp Require Import gmap strings list.

(** ** JavaScript numbers *)

Module Number.

(** binary64: 53 bits of precision, exponent of the infinities 1024. *)
Definition prec : Z := 53.
Definition emax : Z := 1024.

Definition number : Type := spec_float.

(** A [number] is a double when its mantissa/exponent pair is the canonical
    binary64 one. *)
Definition valid (x : number) : bool := valid_binary prec emax x.

(** The double of an integer (exact below 2^53, rounded to nearest even above). *)
Definition ofZ (z : Z) : number := binary_normalize prec emax z 0 false.

(** [x * y] *)
Definition mul (x y : number) : number := SFmul prec emax x y.

(** [x < y] and [x <= y] *)
Definition ltb (x y : number) : bool := SFltb x y.
Definition leb (x y : number) : bool := SFleb x y.

(** [Math.floor(x)], as the integer it denotes.  [Math.floor] returns NaN and
    the infinities unchanged: these are [None].  The floor of a finite double
    is a double again, so nothing is lost by reading it as an integer; both
    zeros floor to index 0. *)
Definition floor (x : number) : option Z :=
  match x with
  | S754_zero _ => Some 0%Z
  | S754_finite s m e => Some (Z.shiftl (cond_Zopp s (Zpos m)) e)
  | S754_infinity _ | S754_nan => None
  end.

(** What [Math.random()] may return: a double [r] with [0 <= r < 1]. *)
Definition unit_interval (r : number) : bool :=
  valid r && leb (ofZ 0) r && ltb r (ofZ 1).

(** The largest [length] a JavaScript array can have, 2^32 - 1. *)
Definition MAX_ARRAY_LENGTH : Z := 4294967295.

(** Right shifts of the rounding unit: after [j] single-bit shifts of the
    non-negative integer [P] the record holds [P / 2^j], and its round bit is
    set only when the bits shifted out amount to at least half of [2^j]. *)
Definition shifted (P j : Z) (rec : shr_record) : Prop :=
  shr_m rec = (P / 2 ^ j)%Z /\
  (shr_r rec = true -> (2 ^ j <= 2 * (P mod 2 ^ j))%Z).

End Number.

Export Number(number).

(** ** Data model *)

(** [interface Settings] (lines 5-8). *)
Record Settings : Type := {
  imageUrls : list string;
  intervalMinutes : number
}.

(** [const defaultImages] (lines 10-17). *)
Definition defaultImages : list string :=
  [ "https://i.imgur.com/lBsiH4u.png";
    "https://i.imgur.com/771nDEc.png";
    "https://i.imgur.com/oL0mqN5.png";
    "https://i.imgur.com/2hJcobD.png";
    "https://i.imgur.com/9BzZDag.png";
    "https://i.imgur.com/O4u6CXU.png" ].

(** The object literal [{ imageUrls: defaultImages, intervalMinutes: 4 }],
    written out three times in the source (lines 30-33, 45-48, 168-171). *)
Definition defaultSettings : Settings :=
  {| imageUrls := defaultImages; intervalMinutes := Number.ofZ 4 |}.

(** The one key of the store the extension uses. *)
Definition SETTINGS_KEY : string := "imageCycleSettings".

(** A message posted by the settings webview: [message.command] selects the
    case of the [switch], [message.settings] is [undefined] ([None]) when the
    field is missing. *)
Record Message : Type := {
  command : string;
  settings : option Settings
}.

(** ** The host *)

(** Timer handles.  Node's [setInterval] returns a [Timeout] object, which is
    truthy whatever its identity: [Some h] is truthy, [None] is [undefined]. *)
Definition handle : Type := nat.

(** A live repeating timer: the arrow function of line 186 closes over
    [settings], and nothing in [extension.ts] ever assigns to a field of a
    [Settings] object or to an element of an [imageUrls] array, so the closure
    is the list it will read, [settings.imageUrls]; [delay] is the second
    argument of [setInterval] as passed. *)
Record Timer : Type := {
  callbackUrls : list string;
  delay : number
}.

Inductive Severity : Type := Information | Warning | Error.

(** The two markup templates, by their argument: [getSettingsWebviewContent]
    (lines 75-165) and [getWebviewContent] (lines 215-242).  The image URL is
    [None] when the array access of line 204 yields [undefined]. *)
Inductive Html : Type :=
| SettingsHtml (settings : Settings)
| ViewerHtml (imageUrl : option string).

(** One entry per call into the host, in program order. *)
Inductive Event : Type :=
| CommandRegistered (name : string)
| StateUpdated (key : string) (value : option Settings)
| PanelCreated (viewType title : string)
| HtmlAssigned (html : Html)
| ListenerAdded
| IntervalSet (id : handle) (ms : number)
| IntervalCleared (id : handle)
| MessageShown (severity : Severity) (text : string).

Record State : Type := {
  (** [let intervalId: NodeJS.Timeout | undefined] (line 3) *)
  intervalId : option handle;
  (** [context.globalState] *)
  globalState : gmap string Settings;
  (** the repeating timers that have been set and not cleared *)
  timers : gmap handle Timer;
  (** the handle the next [setInterval] returns *)
  nextTimer : handle;
  (** message handlers suspended at the [await] of line 56 *)
  awaiting : nat;
  (** the values [Math.random()] returns, and how many have been drawn *)
  random : nat -> number;
  drawn : nat;
  (** every host call so far, oldest first *)
  log : list Event
}.

(** The state the extension host starts the module in. *)
Definition initial (rnd : nat -> number) : State :=
  {| intervalId := None; globalState := ∅; timers := ∅; nextTimer := 0;
     awaiting := 0; random := rnd; drawn := 0; log := [] |}.

(** *** The state monad *)

Definition M (A : Type) : Type := State -> A * State.

#[export] Instance M_ret : MRet M := fun A (a : A) s => (a, s).
#[export] Instance M_bind : MBind M :=
  fun A B (f : A -> M B) (m : M A) s => let '(a, s') := m s in f a s'.

(** The state a computation ends in. *)
Definition exec {A : Type} (m : M A) (s : State) : State := snd (m s).

Definition emit (e : Event) : M unit := fun s =>
  (tt, {| intervalId := intervalId s; globalState := globalState s;
          timers := timers s; nextTimer := nextTimer s; awaiting := awaiting s;
          random := random s; drawn := drawn s; log := log s ++ [e] |}).

(** *** Host calls *)

(** Reading and assigning the module variable [intervalId]. *)
Definition getIntervalId : M (option handle) := fun s => (intervalId s, s).

Definition setIntervalId (v : option handle) : M unit := fun s =>
  (tt, {| intervalId := v; globalState := globalState s;
          timers := timers s; nextTimer := nextTimer s; awaiting := awaiting s;
          random := random s; drawn := drawn s; log := log s |}).

(** [context.globalState.get(key)]: [undefined] when the key is absent. *)
Definition globalState_get (key : string) : M (option Settings) := fun s =>
  (globalState s !! key, s).

(** [context.globalState.get(key, defaultValue)] *)
Definition globalState_get_default (key : string) (defaultValue : Settings)
  : M Settings := fun s => (default defaultValue (globalState s !! key), s).

(** [context.globalState.update(key, value)]: the value is readable as soon
    as the call returns; storing [undefined] removes the key.  The promise it
    returns completes later (see [saveCompleted]). *)
Definition globalState_update (key : string) (value : option Settings)
  : M unit := fun s =>
  (tt, {| intervalId := intervalId s;
          globalState := match value with
                         | Some v => <[key := v]> (globalState s)
                         | None => delete key (globalState s)
                         end;
          timers := timers s; nextTimer := nextTimer s; awaiting := awaiting s;
          random := random s; drawn := drawn s;
          log := log s ++ [StateUpdated key value] |}).

(** [setInterval(callback, ms)] *)
Definition setInterval (callback : list string) (ms : number) : M handle :=
  fun s =>
  (nextTimer s,
   {| intervalId := intervalId s; globalState := globalState s;
      timers := <[nextTimer s := {| callbackUrls := callback; delay := ms |}]>
                  (timers s);
      nextTimer := S (nextTimer s); awaiting := awaiting s;
      random := random s; drawn := drawn s;
      log := log s ++ [IntervalSet (nextTimer s) ms] |}).

(** [clearInterval(id)] *)
Definition clearInterval (id : handle) : M unit := fun s =>
  (tt, {| intervalId := intervalId s; globalState := globalState s;
          timers := delete id (timers s);
          nextTimer := nextTimer s; awaiting := awaiting s;
          random := random s; drawn := drawn s;
          log := log s ++ [IntervalCleared id] |}).

(** [Math.random()] *)
Definition Math_random : M number := fun s =>
  (random s (drawn s),
   {| intervalId := intervalId s; globalState := globalState s;
      timers := timers s; nextTimer := nextTimer s; awaiting := awaiting s;
      random := random s; drawn := S (drawn s); log := log s |}).

(** Entering and leaving the [await] of line 56. *)
Definition suspend : M unit := fun s =>
  (tt, {| intervalId := intervalId s; globalState := globalState s;
          timers := timers s; nextTimer := nextTimer s;
          awaiting := S (awaiting s);
          random := random s; drawn := drawn s; log := log s |}).

Definition resume : M bool := fun s =>
  match awaiting s with
  | O => (false, s)
  | S n =>
      (true, {| intervalId := intervalId s; globalState := globalState s;
                timers := timers s; nextTimer := nextTimer s; awaiting := n;
                random := random s; drawn := drawn s; log := log s |})
  end.

Definition registerCommand (name : string) : M unit :=
  emit (CommandRegistered name).
Definition createWebviewPanel (viewType title : string) : M unit :=
  emit (PanelCreated viewType title).
Definition set_webview_html (html : Html) : M unit := emit (HtmlAssigned html).
Definition onDidReceiveMessage_subscribe : M unit := emit ListenerAdded.
Definition showInformationMessage (text : string) : M unit :=
  emit (MessageShown Information text).
Definition showWarningMessage (text : string) : M unit :=
  emit (MessageShown Warning text).
Definition showErrorMessage (text : string) : M unit :=
  emit (MessageShown Error text).

(** ** The extension *)

(** [imageUrls.length], a number. *)
Definition array_length (imageUrls : list string) : number :=
  Number.ofZ (Z.of_nat (length imageUrls)).

(** [imageUrls[i]] for [i] the result of [Math.floor]: [undefined] when [i] is
    NaN, infinite, negative or past the end. *)
Definition array_get (imageUrls : list string) (i : option Z) : option string :=
  match i with
  | Some z => if (z <? 0)%Z then None else imageUrls !! Z.to_nat z
  | None => None
  end.

(** [imageUrls[Math.floor(r * imageUrls.length)]] (line 204), [r] being the
    value [Math.random()] returned. *)
Definition randomUrl (imageUrls : list string) (r : number) : option string :=
  array_get imageUrls (Number.floor (Number.mul r (array_length imageUrls))).

Definition getSettingsWebviewContent (settings : Settings) : Html :=
  SettingsHtml settings.

Definition getWebviewContent (imageUrl : option string) : Html :=
  ViewerHtml imageUrl.

(** [function showRandomImage] (lines 203-213). *)
Definition showRandomImage (imageUrls : list string) : M unit :=
  r ← Math_random;
  createWebviewPanel "imageViewer" "Full Screen Image";;
  set_webview_html (getWebviewContent (randomUrl imageUrls r)).

(** [function startImageCycle] (lines 167-191); each early [return] is the
    end of its branch. *)
Definition startImageCycle : M unit :=
  settings ← globalState_get_default SETTINGS_KEY defaultSettings;
  if (length (imageUrls settings) =? 0)%nat then
    showErrorMessage "Please set image URLs in the settings first"
  else
    id ← getIntervalId;
    match id with
    | Some _ => showWarningMessage "Image cycle is already running"
    | None =>
        h ← setInterval (imageUrls settings)
              (Number.mul (Number.mul (intervalMinutes settings) (Number.ofZ 60))
                 (Number.ofZ 1000));
        setIntervalId (Some h);;
        showRandomImage (imageUrls settings);;
        showInformationMessage "Started image cycle"
    end.

(** [function stopImageCycle] (lines 193-201). *)
Definition stopImageCycle : M unit :=
  id ← getIntervalId;
  match id with
  | Some h =>
      clearInterval h;;
      setIntervalId None;;
      showInformationMessage "Stopped image cycle"
  | None => showWarningMessage "Image cycle is not running"
  end.

(** The listener of lines 52-72, up to its [await]: a [switch] on
    [message.command] with no default case. *)
Definition onDidReceiveMessage (message : Message) : M unit :=
  if String.eqb (command message) "saveSettings" then
    globalState_update SETTINGS_KEY (settings message);;
    suspend
  else if String.eqb (command message) "startCycle" then startImageCycle
  else if String.eqb (command message) "stopCycle" then stopImageCycle
  else mret tt.

(** The rest of the [saveSettings] case (line 60), run when the host
    completes the promise of a pending [update]. *)
Definition saveCompleted : M unit :=
  woken ← resume;
  if woken : bool then showInformationMessage "Settings saved successfully"
  else mret tt.

(** [function openSettings] (lines 37-73). *)
Definition openSettings : M unit :=
  createWebviewPanel "imageSettings" "Image Cycle Settings";;
  settings ← globalState_get_default SETTINGS_KEY defaultSettings;
  set_webview_html (getSettingsWebviewContent settings);;
  onDidReceiveMessage_subscribe.

(** [export function activate] (lines 19-35).  A stored [Settings] object is
    truthy; only [undefined] takes the branch of line 29.  The promise of the
    [update] is dropped. *)
Definition activate : M unit :=
  registerCommand "extension.openSettings";;
  currentSettings ← globalState_get SETTINGS_KEY;
  match currentSettings with
  | Some _ => mret tt
  | None => globalState_update SETTINGS_KEY (Some defaultSettings)
  end.

(** [export function deactivate] (lines 244-248): the handle is cleared, the
    variable keeps it. *)
Definition deactivate : M unit :=
  id ← getIntervalId;
  match id with
  | Some h => clearInterval h
  | None => mret tt
  end.

(** The host firing timer [id]: nothing happens unless the timer is live. *)
Definition tick (id : handle) : M unit :=
  fun s =>
  match timers s !! id with
  | Some t => showRandomImage (callbackUrls t) s
  | None => (tt, s)
  end.

(** ** Runs of the controller *)

(** What the host and the user can make happen. *)
Inductive Op : Type :=
| Activate
| OpenSettings
| Receive (message : Message)
| SaveCompleted
| Tick (id : handle)
| Deactivate.

Definition step (op : Op) : M unit :=
  match op with
  | Activate => activate
  | OpenSettings => openSettings
  | Receive message => onDidReceiveMessage message
  | SaveCompleted => saveCompleted
  | Tick id => tick id
  | Deactivate => deactivate
  end.

Fixpoint run (ops : list Op) (s : State) : State :=
  match ops with
  | [] => s
  | op :: rest => run rest (exec (step op) s)
  end.

(** The three messages of the settings webview. *)
Definition saveSettingsMessage (s : Settings) : Message :=
  {| command := "saveSettings"; settings := Some s |}.
Definition startCycleMessage : Message :=
  {| command := "startCycle"; settings := None |}.
Definition stopCycleMessage : Message :=
  {| command := "stopCycle"; settings := None |}.

(** The [Settings] a read of the store returns (lines 45-48 and 168-171). *)
Definition currentSettings (s : State) : Settings :=
  default defaultSettings (globalState s !! SETTINGS_KEY).

(** The image URLs put on screen, oldest first. *)
Definition displayed (evs : list Event) : list (option string) :=
  omap (fun e => match e with
                 | HtmlAssigned (ViewerHtml u) => Some u
                 | _ => None
                 end) evs.

(** ** Stating the properties *)

(** [s'] is [s] with the host calls [evs] appended to its log, and nothing
    else changed. *)
Definition only_logged (evs : list Event) (s s' : State) : Prop :=
  intervalId s' = intervalId s /\ globalState s' = globalState s /\
  timers s' = timers s /\ nextTimer s' = nextTimer s /\
  awaiting s' = awaiting s /\ random s' = random s /\ drawn s' = drawn s /\
  log s' = log s ++ evs.

(** No cycle: the controller holds no handle and the host has no live timer. *)
Definition cycle_stopped (s : State) : Prop :=
  intervalId s = None /\ timers s = ∅.

(** A cycle is active: the host's one live timer is [t], and the controller
    holds its handle [h]. *)
Definition cycle_running (s : State) (h : handle) (t : Timer) : Prop :=
  intervalId s = Some h /\ timers s = {[ h := t ]}.

(** Every live timer is the one whose handle the controller holds. *)
Definition tracked (s : State) : Prop :=
  timers s = ∅ \/ exists h t, cycle_running s h t.

(** [saveSettings] messages, whatever they carry. *)
Definition is_save (op : Op) : bool :=
  match op with
  | Receive message => String.eqb (command message) "saveSettings"
  | _ => false
  end.

(** What can happen while a cycle runs without ending it: anything but a
    [stopCycle] message and the teardown. *)
Definition while_running (op : Op) : bool :=
  match op with
  | Receive message => negb (String.eqb (command message) "stopCycle")
  | Deactivate => false
  | Activate | OpenSettings | SaveCompleted | Tick _ => true
  end.

(** Everything but the teardown. *)
Definition alive (op : Op) : bool :=
  match op with
  | Deactivate => false
  | _ => true
  end.

(** The timer [startImageCycle] sets for the settings it read. *)
Definition cycle_timer (settings : Settings) : Timer :=
  {| callbackUrls := imageUrls settings;
     delay := Number.mul (Number.mul (intervalMinutes settings) (Number.ofZ 60))
                (Number.ofZ 1000) |}.

(** The host calls of one [showRandomImage imageUrls] drawing [r]. *)
Definition shown (imageUrls : list string) (r : number) : list Event :=
  [ PanelCreated "imageViewer" "Full Screen Image";
    HtmlAssigned (ViewerHtml (randomUrl imageUrls r)) ].

(** The position of the first event satisfying [p]. *)
Fixpoint first_index (p : Event -> bool) (evs : list Event) : option nat :=
  match evs with
  | [] => None
  | e :: rest => if p e then Some 0 else S <$> first_index p rest
  end.

Definition is_display (e : Event) : bool :=
  match e with HtmlAssigned (ViewerHtml _) => true | _ => false end.

Definition is_scheduling (e : Event) : bool :=
  match e with IntervalSet _ _ => true | _ => false end.

(** The order the spec gives for a successful start: the first image is on
    screen before the repeating timer is set. *)
Definition displays_before_scheduling (evs : list Event) : bool :=
  match first_index is_display evs, first_index is_scheduling evs with
  | Some i, Some j => i <? j
  | _, _ => false
  end.

(** *** Sample states *)

(** A random source stuck at [+0], and one stuck at the double nearest to
    one third, [6004799503160661 * 2^-54]. *)
Definition always_zero : nat -> number := fun _ => S754_zero false.
Definition always_third : nat -> number :=
  fun _ => S754_finite false 6004799503160661 (-54).

(** The extension just activated on an empty store. *)
Definition fresh (rnd : nat -> number) : State := exec activate (initial rnd).

Definition two_urls : Settings :=
  {| imageUrls := ["a"; "b"]; intervalMinutes := Number.ofZ 7 |}.

Definition no_urls : Settings :=
  {| imageUrls := []; intervalMinutes := Number.ofZ 7 |}.

Ltac unfold_host :=
  unfold exec, step, activate, deactivate, openSettings, onDidReceiveMessage,
    saveCompleted, startImageCycle, stopImageCycle, showRandomImage, tick,
    registerCommand, createWebviewPanel, set_webview_html,
    onDidReceiveMessage_subscribe, showInformationMessage, showWarningMessage,
    showErrorMessage, emit, getIntervalId, setIntervalId, globalState_get,
    globalState_get_default, globalState_update, setInterval, clearInterval,
    Math_random, suspend, resume, mbind, mret, M_bind, M_ret.

(** ** The script of the settings form

    The markup [getSettingsWebviewContent] returns (lines 75-165) carries a
    script (lines 109-161) that keeps the rows of the form in an array [urls]
    and posts the three messages.  It runs in the webview; what is modelled is
    the script's own state and functions, not the page. *)

(** *** Strings and [parseInt] *)

Module JsString.
Import Stdlib.Strings.Ascii.

(** A [string] is read as the sequence of its code units, each below 256.  Of
    the code points [String.prototype.trim] strips (ECMAScript's WhiteSpace
    and LineTerminator) those below 256 are U+0009 to U+000D, U+0020 and
    U+00A0. *)
Definition isWhiteSpace (c : ascii) : bool :=
  let n := N_of_ascii c in
  ((9 <=? n)%N && (n <=? 13)%N) || (n =? 32)%N || (n =? 160)%N.

Fixpoint trimStart (s : string) : string :=
  match s with
  | EmptyString => EmptyString
  | String c rest => if isWhiteSpace c then trimStart rest else s
  end.









(** Every code unit of [s] is white space. *)
Fixpoint blank (s : string) : bool :=
  match s with
  | EmptyString => true
  | String c rest => isWhiteSpace c && blank rest
  end.




End JsString.

(** *** The script *)

Module Webview.

(** The script's state: the array [urls], where [None] is a hole (an index
    at which the array has no element), and the text of the interval field,
    [document.getElementById('interval').value]. *)
Record Form : Type := {
  urls : list (option string);
  interval : string
}.




(** Typing into the interval field. *)
Definition setInterval_field (text : string) (f : Form) : Form :=
  {| urls := urls f; interval := text |}.



(** [function startCycle] and [function stopCycle] (lines 152-158). *)
Definition startCycle : Message := {| command := "startCycle"; settings := None |}.
Definition stopCycle : Message := {| command := "stopCycle"; settings := None |}.

End Webview.

(** *** Counting in the log *)

Fixpoint count_if {A : Type} (p : A -> bool) (l : list A) : nat :=
  match l with
  | [] => 0
  | x :: rest => (if p x then 1 else 0) + count_if p rest
  end.

(** The panels [showRandomImage] has created (line 205). *)
Definition is_viewer_panel (e : Event) : bool :=
  match e with
  | PanelCreated viewType _ => String.eqb viewType "imageViewer"
  | _ => false
  end.

(** The success notifications of saves (line 60). *)
Definition is_save_notice (e : Event) : bool :=
  match e with
  | MessageShown Information text => String.eqb text "Settings saved successfully"
  | _ => false
  end.

(** Messages other than [startCycle]. *)
Definition no_start (op : Op) : bool :=
  match op with
  | Receive message => negb (String.eqb (command message) "startCycle")
  | _ => true
  end.

(** A [saveSettings] message that lacks the [settings] field. *)
Definition saveNothingMessage : Message :=
  {| command := "saveSettings"; settings := None |}.

(** What one operation adds to the log, to the draws and to the handlers
    waiting at the [await]. *)
Definition accounted (op : Op) (s s' : State) (evs : list Event) : Prop :=
  log s' = log s ++ evs /\
  drawn s' = drawn s + length (displayed evs) /\
  count_if is_viewer_panel evs = length (displayed evs) /\
  count_if is_save_notice evs + awaiting s' =
    awaiting s + (if is_save op then 1 else 0).

(** ** Facts about binary64 multiplication

    [showRandomImage] indexes the array with
    [Math.floor(Math.random() * imageUrls.length)], and [startImageCycle]
    computes the delay as [settings.intervalMinutes * 60 * 1000].  Both
    products are rounded to the nearest double.  That the index stays below
    the length, and that whole minutes give whole milliseconds, are
    properties of that rounding; they are proved here from the Standard
    Library's specification of [SFmul]: a right shift that keeps a round and
    a sticky bit, rounding to nearest even, and a renormalising shift. *)

Module NumberFacts.
Import Number.
Local Open Scope Z_scope.

(** *** Binary digits *)

Lemma pow2_pred (d : Z) : 0 < d -> 2 ^ d = 2 * 2 ^ (d - 1).
Proof.
  intros Hd. rewrite <- Z.pow_succ_r by lia. f_equal. lia.
Qed.

(** [digits2_pos p] is the number of binary digits of [p]. *)
Lemma digits2_pos_bounds (p : positive) :
  2 ^ (Zpos (digits2_pos p) - 1) <= Zpos p < 2 ^ Zpos (digits2_pos p).
Proof.
  induction p as [p IH | p IH |]; cbn [digits2_pos].
  - rewrite Pos2Z.inj_succ, (Pos2Z.inj_xI p).
    replace (Z.succ (Zpos (digits2_pos p)) - 1) with (Zpos (digits2_pos p)) by lia.
    rewrite (pow2_pred (Z.succ _)) by lia.
    replace (Z.succ (Zpos (digits2_pos p)) - 1) with (Zpos (digits2_pos p)) by lia.
    pose proof (pow2_pred _ (Pos2Z.is_pos (digits2_pos p))). lia.
  - rewrite Pos2Z.inj_succ, (Pos2Z.inj_xO p).
    replace (Z.succ (Zpos (digits2_pos p)) - 1) with (Zpos (digits2_pos p)) by lia.
    rewrite (pow2_pred (Z.succ _)) by lia.
    replace (Z.succ (Zpos (digits2_pos p)) - 1) with (Zpos (digits2_pos p)) by lia.
    pose proof (pow2_pred _ (Pos2Z.is_pos (digits2_pos p))). lia.
  - cbn. lia.
Qed.

Lemma digits2_pos_le (p : positive) (b : Z) :
  Zpos p < 2 ^ b -> Zpos (digits2_pos p) <= b.
Proof.
  intros Hlt. destruct (digits2_pos_bounds p) as [Hlo _].
  destruct (Z.le_gt_cases (Zpos (digits2_pos p)) b) as [|Hgt]; [done|].
  assert (2 ^ b <= 2 ^ (Zpos (digits2_pos p) - 1)).
  { destruct (Z.le_gt_cases 0 b).
    - apply Z.pow_le_mono_r; lia.
    - rewrite (Z.pow_neg_r 2 b) by lia. apply Z.pow_nonneg. lia. }
  lia.
Qed.

Lemma digits2_pos_ge (p : positive) (b : Z) :
  2 ^ (b - 1) <= Zpos p -> b <= Zpos (digits2_pos p).
Proof.
  intros Hle. destruct (digits2_pos_bounds p) as [_ Hhi].
  destruct (Z.le_gt_cases b (Zpos (digits2_pos p))) as [|Hgt]; [done|].
  assert (2 ^ Zpos (digits2_pos p) <= 2 ^ (b - 1)) by (apply Z.pow_le_mono_r; lia).
  lia.
Qed.

(** [Pos.iter xO p s] appends [s] zero bits to [p]. *)
Lemma iter_xO (p s : positive) : Zpos (Pos.iter xO p s) = Zpos p * 2 ^ Zpos s.
Proof.
  induction s as [|s IH] using Pos.peano_ind.
  - cbn [Pos.iter]. rewrite (Pos2Z.inj_xO p). change (2 ^ 1) with 2. lia.
  - rewrite Pos.iter_succ, Pos2Z.inj_xO, IH, Pos2Z.inj_succ, Z.pow_succ_r by lia. lia.
Qed.

(** *** The rounding unit *)

(** One step of the shifter on a non-negative mantissa: the mantissa is
    halved and the bit that falls off becomes the round bit. *)
Lemma shr_1_nonneg (rec : shr_record) :
  0 <= shr_m rec ->
  shr_m (shr_1 rec) = shr_m rec / 2 /\ shr_r (shr_1 rec) = Z.odd (shr_m rec).
Proof.
  destruct rec as [m r s]. cbn [shr_m].
  destruct m as [| [p | p |] | p]; cbn [shr_1 shr_m shr_r]; intros Hm; try lia.
  - split; [|done]. symmetry. apply Z.div_small. lia.
  - split; [|done]. rewrite (Pos2Z.inj_xI p).
    apply (Z.div_unique_pos _ _ _ 1); lia.
  - split; [|done]. rewrite (Pos2Z.inj_xO p).
    apply (Z.div_unique_pos _ _ _ 0); lia.
  - split; [|done]. done.
Qed.

Section Shifted.
Variable P : Z.
Hypothesis P_nonneg : 0 <= P.

(** [shifted] holds at the start, is kept by every single shift, hence by
    [iter_pos shr_1]. *)
Lemma shifted_start s : shifted P 0 {| shr_m := P; shr_r := false; shr_s := s |}.
Proof. split; cbn; [by rewrite Z.div_1_r | done]. Qed.

Lemma shifted_step j rec : 0 <= j -> shifted P j rec -> shifted P (j + 1) (shr_1 rec).
Proof.
  intros Hj [Hm Hr].
  assert (Hpow : 0 < 2 ^ j) by (apply Z.pow_pos_nonneg; lia).
  assert (Hq : 0 <= P / 2 ^ j) by (apply Z.div_pos; lia).
  destruct (shr_1_nonneg rec) as [Hm' Hr']; [lia|].
  unfold shifted. rewrite Z.pow_add_r, Z.pow_1_r by lia.
  split.
  - rewrite Hm', Hm, Z.div_div by lia. done.
  - rewrite Hr', Hm. intros Hodd.
    rewrite Z.rem_mul_r by lia.
    rewrite Zmod_odd, Hodd.
    pose proof (Z.mod_pos_bound P (2 ^ j) Hpow). lia.
Qed.

Lemma shifted_iter (p : positive) :
  forall j rec, 0 <= j -> shifted P j rec ->
                shifted P (j + Zpos p) (SpecFloat.iter_pos shr_1 p rec).
Proof.
  induction p as [p IH | p IH |]; intros j rec Hj Hrec; cbn [SpecFloat.iter_pos].
  - replace (j + Zpos p~1) with (j + 1 + Zpos p + Zpos p) by lia.
    apply IH; [lia|]. apply IH; [lia|]. by apply shifted_step.
  - replace (j + Zpos p~0) with (j + Zpos p + Zpos p) by lia.
    apply IH; [lia|]. by apply IH.
  - by apply shifted_step.
Qed.

(** Rounding to nearest even after [j] shifts: the result is at most half a
    unit of [2^j] above [P], and is [P / 2^j] itself when that division is
    exact. *)
Lemma shifted_round j rec :
  0 <= j -> shifted P j rec ->
  let m := round_nearest_even (shr_m rec) (loc_of_shr_record rec) in
  0 <= m /\ 2 * m * 2 ^ j <= 2 * P + 2 ^ j /\
  (P mod 2 ^ j = 0 -> m = P / 2 ^ j).
Proof.
  intros Hj [Hm Hr].
  assert (Hpow : 0 < 2 ^ j) by (apply Z.pow_pos_nonneg; lia).
  assert (Hq : 0 <= P / 2 ^ j) by (apply Z.div_pos; lia).
  pose proof (Z.mod_pos_bound P (2 ^ j) Hpow) as Hmod.
  pose proof (Z.div_mod P (2 ^ j)) as Hdm.
  destruct rec as [m r s]; cbn [shr_m shr_r] in *. subst m.
  assert (Hup : forall m', m' <= P / 2 ^ j + 1 -> r = true ->
                           2 * m' * 2 ^ j <= 2 * P + 2 ^ j).
  { intros m' Hm' ->. specialize (Hr eq_refl). nia. }
  assert (Hsame : 2 * (P / 2 ^ j) * 2 ^ j <= 2 * P + 2 ^ j) by nia.
  assert (Hexact : r = true -> P mod 2 ^ j <> 0).
  { intros ->. specialize (Hr eq_refl). lia. }
  destruct r, s; cbn [loc_of_shr_record round_nearest_even];
    try (split; [lia | split; [done | done]]).
  - split; [lia|]. split; [apply Hup; [lia | done]|]. intros H0. by destruct Hexact.
  - destruct (Z.even _); (split; [lia|]);
      (split; [apply Hup; (lia || done)|]); intros H0; by destruct Hexact.
Qed.
End Shifted.

(** [shr] from an exact location shifts by [n] when [n] is positive and not at
    all otherwise. *)
Lemma shr_exact (P e n : Z) :
  0 <= P ->
  shifted P (Z.max 0 n) (fst (shr (shr_record_of_loc P loc_Exact) e n)) /\
  snd (shr (shr_record_of_loc P loc_Exact) e n) = e + Z.max 0 n.
Proof.
  intros HP. unfold shr, shr_record_of_loc.
  destruct n as [| p | p]; cbn [fst snd].
  - split; [apply shifted_start | lia].
  - replace (Z.max 0 (Zpos p)) with (0 + Zpos p) by lia.
    split; [|lia]. apply shifted_iter; [done | lia | apply shifted_start].
  - replace (Z.max 0 (Zneg p)) with 0 by lia.
    split; [apply shifted_start | lia].
Qed.

(** The result of rounding the positive integer [P] at exponent [E]: the
    mantissa [m1] that rounding to nearest even yields after the first shift
    by [k], shifted once more by [j2] if rounding carried into a 54th bit. *)
Lemma binary_round_aux_exact (P E : Z) :
  0 < P ->
  let k := Z.max 0 (fexp prec emax (Zdigits2 P + E) - E) in
  exists m1 j2,
    (0 <= m1 /\ 2 * m1 * 2 ^ k <= 2 * P + 2 ^ k /\
     (P mod 2 ^ k = 0 -> m1 = P / 2 ^ k)) /\
    j2 = Z.max 0 (fexp prec emax (Zdigits2 m1 + (E + k)) - (E + k)) /\
    binary_round_aux prec emax false P E loc_Exact =
      match m1 / 2 ^ j2 with
      | Z0 => S754_zero false
      | Zpos m => if E + k + j2 <=? emax - prec
                  then S754_finite false m (E + k + j2)
                  else S754_infinity false
      | Zneg _ => S754_nan
      end.
Proof.
  intros HP k. unfold binary_round_aux, shr_fexp.
  destruct (shr_exact P E (fexp prec emax (Zdigits2 P + E) - E)) as [Hs1 He1]; [lia|].
  fold k in Hs1, He1.
  destruct (shr _ E _) as [rec1 e1]. cbn [fst snd] in Hs1, He1. subst e1.
  destruct (shifted_round P (ltac:(lia)) k rec1) as (Hm1 & Hup & Hex); [lia | done |].
  set (m1 := round_nearest_even (shr_m rec1) (loc_of_shr_record rec1)) in *.
  set (n2 := fexp prec emax (Zdigits2 m1 + (E + k)) - (E + k)).
  destruct (shr_exact m1 (E + k) n2) as [[Hs2 _] He2]; [lia|].
  destruct (shr _ (E + k) n2) as [rec2 e2]. cbn [fst snd] in Hs2, He2. subst e2.
  exists m1, (Z.max 0 n2). split; [done|]. split; [done|].
  rewrite Hs2. done.
Qed.

(** *** Doubles in canonical form *)

Lemma bounded_canonical (m : positive) (e : Z) :
  bounded prec emax m e = true ->
  -1074 <= e <= 971 /\ Zpos m < 2 ^ 53.
Proof.
  unfold bounded, canonical_mantissa, fexp, emin, prec, emax.
  intros [Hc He]%andb_prop. apply Z.eqb_eq in Hc. apply Z.leb_le in He.
  split; [lia|].
  destruct (digits2_pos_bounds m) as [_ Hhi].
  eapply Z.lt_le_trans; [exact Hhi|].
  apply Z.pow_le_mono_r; lia.
Qed.

(** The double of an integer [n] with [1 <= n < 2^53]: its mantissa is [n]
    shifted left to 53 bits. *)
Lemma ofZ_normal (n : Z) :
  1 <= n < 2 ^ 53 ->
  exists my ey,
    ofZ n = S754_finite false my ey /\
    2 ^ 52 <= Zpos my < 2 ^ 53 /\ -52 <= ey <= 0 /\ Zpos my = n * 2 ^ (- ey) /\
    ey = Zdigits2 n - 53.
Proof.
  intros [Hlo Hhi]. destruct n as [| p | p]; try lia.
  unfold ofZ, binary_normalize, binary_round.
  set (d := Zpos (digits2_pos p)).
  assert (Hd : 1 <= d <= 53).
  { split; [unfold d; lia | by apply digits2_pos_le]. }
  rewrite Z.add_0_r.
  assert (Hfexp : fexp prec emax d = d - 53) by (unfold fexp, emin, prec, emax; lia).
  rewrite Hfexp.
  (* the aligned mantissa has exactly 53 digits *)
  assert (Halign : exists mz, shl_align p 0 (d - 53) = (mz, d - 53) /\
                              Zpos mz = Zpos p * 2 ^ (53 - d)).
  { unfold shl_align. rewrite Z.sub_0_r.
    destruct (d - 53) as [| q | q] eqn:Edq; try lia.
    - exists p. split; [done|]. replace (53 - d) with 0 by lia. cbn. lia.
    - exists (Pos.iter xO p q). split; [done|].
      rewrite iter_xO. do 2 f_equal. lia. }
  destruct Halign as (mz & -> & Hmz).
  destruct (digits2_pos_bounds p) as [Hplo Hphi]. fold d in Hplo, Hphi.
  assert (Hpow : 0 < 2 ^ (53 - d)) by (apply Z.pow_pos_nonneg; lia).
  assert (Hmzlo : 2 ^ 52 <= Zpos mz).
  { rewrite Hmz. replace 52 with ((d - 1) + (53 - d)) by lia.
    rewrite Z.pow_add_r by lia. nia. }
  assert (Hmzhi : Zpos mz < 2 ^ 53).
  { rewrite Hmz. replace 53 with (d + (53 - d)) at 2 by lia.
    rewrite Z.pow_add_r by lia. nia. }
  assert (Hdz : Zpos (digits2_pos mz) = 53).
  { apply Z.le_antisymm; [by apply digits2_pos_le | by apply digits2_pos_ge]. }
  exists mz, (d - 53).
  split; [| split; [lia | split; [lia | split; [rewrite Hmz; do 2 f_equal; lia | done]]]].
  unfold binary_round_aux, shr_fexp. cbn [Zdigits2].
  rewrite Hdz.
  replace (fexp prec emax (53 + (d - 53)) - (d - 53)) with 0
    by (unfold fexp, emin, prec, emax; lia).
  cbn [shr shr_record_of_loc shr_m loc_of_shr_record round_nearest_even Zdigits2].
  rewrite Hdz.
  replace (fexp prec emax (53 + (d - 53)) - (d - 53)) with 0
    by (unfold fexp, emin, prec, emax; lia).
  cbn [shr shr_record_of_loc shr_m].
  replace (d - 53 <=? emax - prec) with true
    by (symmetry; apply Z.leb_le; unfold emax, prec; lia).
  done.
Qed.

(** [x < y] on positive finite doubles compares exponents, then mantissas. *)
Lemma finite_ltb_inv (mx my : positive) (ex ey : Z) :
  ltb (S754_finite false mx ex) (S754_finite false my ey) = true ->
  ex < ey \/ (ex = ey /\ Zpos mx < Zpos my).
Proof.
  unfold ltb, SFltb, SFcompare.
  destruct (Z.compare_spec ex ey) as [Heq | Hl | Hg]; [| by left | done].
  destruct (Pos.compare_cont Eq mx my) eqn:Ec; try done.
  intros _. right. split; [done|]. exact Ec.
Qed.

(** A positive double below 1 has an exponent of at most -53. *)
Lemma below_one_exponent (mx : positive) (ex : Z) :
  bounded prec emax mx ex = true ->
  ltb (S754_finite false mx ex) (ofZ 1) = true ->
  ex <= -53.
Proof.
  intros Hb Hlt.
  destruct (finite_ltb_inv mx 4503599627370496 ex (-52) Hlt) as [Hex | [-> Hmx]];
    [lia|].
  exfalso.
  unfold bounded, canonical_mantissa, fexp, emin, prec, emax in Hb.
  apply andb_prop in Hb as [Hc _]. apply Z.eqb_eq in Hc.
  assert (Zpos (digits2_pos mx) <= 52) by (by apply digits2_pos_le).
  clear Hmx. lia.
Qed.

(** *** The index stays below the length *)

(** The rounded product of a double [mx * 2^ex < 1] and the double of the
    integer [n], floored.  With [X], [Y] the two mantissas and [k] the shift,
    the rounded mantissa [m1] satisfies [m1 * 2^k < 2^53 * Y]: rounding adds at
    most half of [2^k], which is less than what [X <= 2^53 - 1] leaves below
    [2^53 * Y]. *)
Lemma mul_below_length (mx : positive) (ex : Z) (my : positive) (ey n : Z) :
  bounded prec emax mx ex = true ->
  ex <= -53 ->
  2 ^ 52 <= Zpos my < 2 ^ 53 ->
  -52 <= ey <= 0 ->
  Zpos my = n * 2 ^ (- ey) ->
  exists i,
    floor (mul (S754_finite false mx ex) (S754_finite false my ey)) = Some i /\
    0 <= i < n.
Proof.
  intros Hb Hex Hmy Hey Hn.
  destruct (bounded_canonical _ _ Hb) as [Hex' Hmx].
  unfold mul. cbn [SFmul xorb].
  destruct (binary_round_aux_exact (Zpos (mx * my)) (ex + ey)) as (m1 & j2 & (Hm1 & Hup & _) & Hj2 & ->);
    [lia|].
  cbn [Zdigits2] in *.
  set (dP := Zpos (digits2_pos (mx * my))) in *.
  set (E := ex + ey) in *.
  set (k := Z.max 0 (fexp prec emax (dP + E) - E)) in *.
  rewrite Pos2Z.inj_mul in Hup.
  set (X := Zpos mx) in *. set (Y := Zpos my) in *.
  assert (HX : 0 < X) by (unfold X; lia).
  assert (HdP : 2 ^ (dP - 1) <= X * Y < 2 ^ dP).
  { unfold dP, X, Y. rewrite <- Pos2Z.inj_mul. apply digits2_pos_bounds. }
  assert (HdP106 : 1 <= dP <= 106).
  { split; [unfold dP; lia|].
    unfold dP. apply digits2_pos_le. rewrite Pos2Z.inj_mul. fold X Y.
    change (2 ^ 106) with (2 ^ 53 * 2 ^ 53). nia. }
  assert (Hk : 0 <= k) by (unfold k; lia).
  assert (Hk53 : k <= 53).
  { unfold k, fexp, emin, prec, emax, E. lia. }
  assert (HK : 0 < 2 ^ k) by (apply Z.pow_pos_nonneg; lia).
  (* the rounded significand stays below 2^53 * Y *)
  assert (G1 : m1 * 2 ^ k < 2 ^ 53 * Y).
  { assert (Hcases : k = 0 \/ (0 < k /\ k = dP - 53) \/ (0 < k /\ k <= 52)).
    { unfold k, fexp, emin, prec, emax, E. lia. }
    destruct Hcases as [Hk0 | [[Hkpos Hkd] | [Hkpos Hk52]]].
    - rewrite Hk0 in *. change (2 ^ 0) with 1 in *. nia.
    - assert (Hlow : 2 ^ k * 2 ^ 52 <= X * Y).
      { rewrite <- Z.pow_add_r by lia. replace (k + 52) with (dP - 1) by lia. lia. }
      assert (H1 : X * Y <= (2 ^ 53 - 1) * Y) by nia.
      lia.
    - assert (Hle : 2 ^ k <= 2 ^ 52) by (apply Z.pow_le_mono_r; lia).
      assert (H1 : X * Y <= (2 ^ 53 - 1) * Y) by nia.
      lia. }
  assert (Hnpos : 0 < n).
  { assert (0 < 2 ^ (- ey)) by (apply Z.pow_pos_nonneg; lia). nia. }
  set (A := 2 ^ (- ex)).
  assert (HA : 2 ^ 53 <= A) by (unfold A; apply Z.pow_le_mono_r; lia).
  assert (HNE : Y * A = n * 2 ^ (- E)).
  { unfold A, E. replace (- (ex + ey)) with (- ey + - ex) by lia.
    rewrite Z.pow_add_r by lia. rewrite Hn. ring. }
  assert (G2 : m1 * 2 ^ k < n * 2 ^ (- E)).
  { rewrite <- HNE. nia. }
  assert (Hj2nn : 0 <= j2) by lia.
  assert (HJ : 0 < 2 ^ j2) by (apply Z.pow_pos_nonneg; lia).
  pose proof (Z.mul_div_le m1 (2 ^ j2) HJ) as Hm2.
  assert (Hm2nn : 0 <= m1 / 2 ^ j2) by (apply Z.div_pos; lia).
  destruct (m1 / 2 ^ j2) as [| m2 | m2] eqn:Em2; [| | lia].
  { exists 0. cbn. split; [done | lia]. }
  (* the exponent stays in range *)
  assert (Hm1pos : 0 < m1) by nia.
  destruct m1 as [| p1 | p1]; try lia.
  cbn [Zdigits2] in Hj2.
  assert (Hd1 : Zpos (digits2_pos p1) <= 106).
  { apply digits2_pos_le. change (2 ^ 106) with (2 ^ 53 * 2 ^ 53). nia. }
  assert (He2 : E + k + j2 <= 971).
  { subst j2. unfold k, fexp, emin, prec, emax, E in *. lia. }
  replace (E + k + j2 <=? emax - prec) with true
    by (symmetry; apply Z.leb_le; unfold emax, prec; lia).
  cbn [floor cond_Zopp].
  eexists. split; [reflexivity|].
  set (e2 := E + k + j2) in *.
  assert (HEneg : 0 < 2 ^ (- E)) by (apply Z.pow_pos_nonneg; unfold E; lia).
  assert (G3 : Zpos m2 * (2 ^ j2 * 2 ^ k) < n * 2 ^ (- E)) by nia.
  destruct (Z.le_gt_cases 0 e2) as [Hpos | Hneg].
  - rewrite Z.shiftl_mul_pow2 by done.
    assert (0 < 2 ^ e2) by (apply Z.pow_pos_nonneg; lia).
    assert (Hsplit : 2 ^ j2 * 2 ^ k = 2 ^ e2 * 2 ^ (- E)).
    { rewrite <- !Z.pow_add_r by (unfold E in *; lia). f_equal. unfold e2. lia. }
    rewrite Hsplit in G3. split; [lia | nia].
  - replace e2 with (- (- e2)) by lia.
    rewrite Z.shiftl_opp_r, Z.shiftr_div_pow2 by lia.
    set (T := 2 ^ (- e2)).
    assert (Hp : 0 < T) by (apply Z.pow_pos_nonneg; lia).
    pose proof (Z.mul_div_le (Zpos m2) T Hp) as Hfl.
    assert (Hnn : 0 <= Zpos m2 / T) by (apply Z.div_pos; lia).
    set (W := 2 ^ j2 * 2 ^ k) in *.
    assert (HW : 0 < W) by (unfold W; lia).
    assert (Hsplit : 2 ^ (- E) = T * W).
    { unfold T, W. rewrite <- !Z.pow_add_r by (unfold E in *; lia).
      f_equal. unfold e2. lia. }
    rewrite Hsplit in G3. split; [lia|].
    apply (Z.mul_lt_mono_pos_r (T * W)); [lia|].
    apply Z.le_lt_trans with (Zpos m2 * W); [|lia].
    rewrite Z.mul_assoc. apply Z.mul_le_mono_nonneg_r; lia.
Qed.

(** The product of a draw of [Math.random()] and a positive array length,
    floored, is an index below that length. *)
Lemma floor_random_times_length (r : number) (n : Z) :
  unit_interval r = true ->
  1 <= n <= MAX_ARRAY_LENGTH ->
  exists i, floor (mul r (ofZ n)) = Some i /\ 0 <= i < n.
Proof.
  intros Hr Hn. unfold MAX_ARRAY_LENGTH in Hn.
  destruct (ofZ_normal n) as (my & ey & -> & Hmy & Hey & Hval & _).
  { change (2 ^ 53) with 9007199254740992. lia. }
  unfold unit_interval in Hr.
  apply andb_prop in Hr as [Hr Hlt]. apply andb_prop in Hr as [Hv Hle].
  destruct r as [s | s | | s mx ex].
  - exists 0. split; [done | lia].
  - destruct s; [by vm_compute in Hle | by vm_compute in Hlt].
  - by vm_compute in Hle.
  - destruct s; [by vm_compute in Hle|].
    apply (mul_below_length mx ex my ey n); [exact Hv | | done..].
    by apply (below_one_exponent mx).
Qed.

(** *** Exact products *)

(** Products of integers that fit the 53 bits of a double are exact. *)
Lemma mul_ofZ (a b : Z) :
  1 <= a -> 1 <= b -> a * b < 2 ^ 53 ->
  mul (ofZ a) (ofZ b) = ofZ (a * b).
Proof.
  intros Ha Hb Hab.
  destruct (ofZ_normal a) as (ma & ea & -> & Hma & Hea & Hva & _); [nia|].
  destruct (ofZ_normal b) as (mb & eb & -> & Hmb & Heb & Hvb & _); [nia|].
  destruct (ofZ_normal (a * b)) as (mc & ec & -> & Hmc & Hec & Hvc & Hdc); [nia|].
  unfold mul. cbn [SFmul xorb].
  destruct (binary_round_aux_exact (Zpos (ma * mb)) (ea + eb))
    as (m1 & j2 & (_ & _ & Hexact) & Hj2 & ->); [lia|].
  cbn [Zdigits2] in *.
  set (dP := Zpos (digits2_pos (ma * mb))) in *.
  set (E := ea + eb) in *.
  set (k := Z.max 0 (fexp prec emax (dP + E) - E)) in *.
  rewrite Pos2Z.inj_mul in Hexact.
  assert (HP : Zpos ma * Zpos mb = a * b * 2 ^ (- E)).
  { unfold E. replace (- (ea + eb)) with (- ea + - eb) by lia.
    rewrite Z.pow_add_r, Hva, Hvb by lia. ring. }
  destruct (a * b) as [| pc | pc] eqn:Ec; try lia.
  cbn [Zdigits2] in Hdc. set (dc := Zpos (digits2_pos pc)) in *.
  destruct (digits2_pos_bounds pc) as [Hclo Hchi]. fold dc in Hclo, Hchi.
  assert (HE : 0 <= - E) by (unfold E; lia).
  assert (HpowE : 0 < 2 ^ (- E)) by (apply Z.pow_pos_nonneg; lia).
  assert (Hdc1 : 1 <= dc <= 53).
  { split; [unfold dc; lia | by apply digits2_pos_le]. }
  assert (HdP : dP = dc - E).
  { unfold dP. apply Z.le_antisymm.
    - apply digits2_pos_le. rewrite Pos2Z.inj_mul, HP.
      replace (dc - E) with (dc + - E) by lia. rewrite Z.pow_add_r by lia. nia.
    - apply digits2_pos_ge. rewrite Pos2Z.inj_mul, HP.
      replace (dc - E - 1) with (dc - 1 + - E) by lia.
      rewrite Z.pow_add_r by lia. nia. }
  assert (HdPlow : 105 <= dP).
  { unfold dP. apply digits2_pos_ge. rewrite Pos2Z.inj_mul.
    change (2 ^ (105 - 1)) with (2 ^ 52 * 2 ^ 52). nia. }
  assert (Hk : k = dc - 53 + - E).
  { unfold k, fexp, emin, prec, emax. lia. }
  assert (Hsplit : 2 ^ (- E) = 2 ^ (53 - dc) * 2 ^ k).
  { rewrite <- Z.pow_add_r by lia. f_equal. lia. }
  assert (Hk0 : 0 < 2 ^ k) by (apply Z.pow_pos_nonneg; lia).
  assert (Hm1 : m1 = Zpos mc).
  { rewrite Hvc, Hdc. replace (- (dc - 53)) with (53 - dc) by lia.
    rewrite Hexact.
    - rewrite HP, Hsplit, Z.mul_assoc. by apply Z.div_mul, Z.neq_sym, Z.lt_neq.
    - rewrite HP, Hsplit, Z.mul_assoc. by apply Z.mod_mul, Z.neq_sym, Z.lt_neq. }
  subst m1. cbn [Zdigits2] in Hj2.
  assert (Hdmc : Zpos (digits2_pos mc) = 53).
  { destruct Hmc as [Hmclo Hmchi].
    apply Z.le_antisymm; [by apply digits2_pos_le | by apply digits2_pos_ge]. }
  assert (Hj0 : j2 = 0).
  { subst j2. rewrite Hdmc. unfold fexp, emin, prec, emax. lia. }
  rewrite Hj0. change (2 ^ 0) with 1. rewrite Z.div_1_r.
  replace (E + k + 0) with ec by lia.
  replace (ec <=? emax - prec) with true
    by (symmetry; apply Z.leb_le; unfold emax, prec; lia).
  done.
Qed.

(** [minutes * 60 * 1000] for a whole number of minutes is the exact number
    of milliseconds. *)
Lemma minutes_to_ms (minutes : Z) :
  1 <= minutes <= 2 ^ 31 ->
  mul (mul (ofZ minutes) (ofZ 60)) (ofZ 1000) = ofZ (minutes * 60 * 1000).
Proof.
  intros Hm. change (2 ^ 31) with 2147483648 in Hm.
  assert (H53 : 2 ^ 53 = 9007199254740992) by done.
  rewrite !mul_ofZ; [done | lia..].
Qed.

End NumberFacts.

(** ** The controller's operations, one by one *)

Section Operations.
Implicit Types (s : State) (h : handle) (t : Timer).

Lemma length_nonzero {A : Type} (l : list A) :
  l <> [] -> (length l =? 0) = false.
Proof. intros Hl. apply Nat.eqb_neq. by destruct l. Qed.

(** What one [showRandomImage] does to the state. *)
Lemma exec_showRandomImage (urls : list string) s :
  exec (showRandomImage urls) s =
    {| intervalId := intervalId s; globalState := globalState s;
       timers := timers s; nextTimer := nextTimer s; awaiting := awaiting s;
       random := random s; drawn := S (drawn s);
       log := log s ++ shown urls (random s (drawn s)) |}.
Proof. unfold_host. cbn. by rewrite <- app_assoc. Qed.

(** A start that goes through. *)
Lemma exec_startImageCycle_fresh s :
  imageUrls (currentSettings s) <> [] ->
  intervalId s = None ->
  exec startImageCycle s =
    {| intervalId := Some (nextTimer s); globalState := globalState s;
       timers := <[nextTimer s := cycle_timer (currentSettings s)]> (timers s);
       nextTimer := S (nextTimer s); awaiting := awaiting s;
       random := random s; drawn := S (drawn s);
       log := log s ++
                IntervalSet (nextTimer s) (delay (cycle_timer (currentSettings s))) ::
                shown (imageUrls (currentSettings s)) (random s (drawn s)) ++
                [MessageShown Information "Started image cycle"] |}.
Proof.
  intros Hne Hid. apply length_nonzero in Hne.
  unfold currentSettings in *. unfold_host. cbn.
  rewrite Hne, Hid. cbn. by rewrite <- !app_assoc.
Qed.

Lemma exec_startImageCycle_running s h :
  imageUrls (currentSettings s) <> [] ->
  intervalId s = Some h ->
  only_logged [MessageShown Warning "Image cycle is already running"]
    s (exec startImageCycle s).
Proof.
  intros Hne Hid. apply length_nonzero in Hne.
  unfold currentSettings in *. unfold_host. cbn.
  rewrite Hne, Hid. cbn. by repeat split.
Qed.

Lemma exec_startImageCycle_empty s :
  imageUrls (currentSettings s) = [] ->
  only_logged [MessageShown Error "Please set image URLs in the settings first"]
    s (exec startImageCycle s).
Proof.
  intros Hempty. unfold currentSettings in *. unfold_host. cbn.
  rewrite Hempty. cbn. by repeat split.
Qed.

Lemma exec_stopImageCycle_none s :
  intervalId s = None ->
  only_logged [MessageShown Warning "Image cycle is not running"]
    s (exec stopImageCycle s).
Proof. intros Hid. unfold_host. cbn. rewrite Hid. cbn. by repeat split. Qed.

Lemma exec_stopImageCycle_some s h :
  intervalId s = Some h ->
  exec stopImageCycle s =
    {| intervalId := None; globalState := globalState s;
       timers := delete h (timers s); nextTimer := nextTimer s;
       awaiting := awaiting s; random := random s; drawn := drawn s;
       log := log s ++ [IntervalCleared h;
                        MessageShown Information "Stopped image cycle"] |}.
Proof.
  intros Hid. unfold_host. cbn. rewrite Hid. cbn. by rewrite <- app_assoc.
Qed.

Lemma exec_save s (message : Message) :
  String.eqb (command message) "saveSettings" = true ->
  exec (onDidReceiveMessage message) s =
    {| intervalId := intervalId s;
       globalState := match settings message with
                      | Some v => <[SETTINGS_KEY := v]> (globalState s)
                      | None => delete SETTINGS_KEY (globalState s)
                      end;
       timers := timers s; nextTimer := nextTimer s;
       awaiting := S (awaiting s); random := random s; drawn := drawn s;
       log := log s ++ [StateUpdated SETTINGS_KEY (settings message)] |}.
Proof. intros Hc. unfold_host. cbn. by rewrite Hc. Qed.

Lemma exec_tick_live s h t :
  timers s !! h = Some t ->
  exec (tick h) s = exec (showRandomImage (callbackUrls t)) s.
Proof. intros Ht. unfold exec, tick. by rewrite Ht. Qed.

Lemma exec_tick_dead s h :
  timers s !! h = None -> exec (tick h) s = s.
Proof. intros Ht. unfold exec, tick. by rewrite Ht. Qed.

(** Only [saveSettings] and the first activation write to the store. *)
Lemma startImageCycle_store s :
  globalState (exec startImageCycle s) = globalState s.
Proof.
  unfold_host. cbn.
  destruct (length _ =? 0); [done|]. by destruct (intervalId s).
Qed.

Lemma stopImageCycle_store s :
  globalState (exec stopImageCycle s) = globalState s.
Proof. unfold_host. cbn. by destruct (intervalId s). Qed.

Lemma step_keeps_settings (op : Op) s (v : Settings) :
  is_save op = false ->
  globalState s !! SETTINGS_KEY = Some v ->
  globalState (exec (step op) s) !! SETTINGS_KEY = Some v.
Proof.
  intros Hop Hv. destruct op as [| | message | | id |]; cbn [step].
  - unfold_host. cbn. by rewrite Hv.
  - unfold_host. by cbn.
  - cbn in Hop. unfold onDidReceiveMessage. rewrite Hop.
    destruct (String.eqb _ "startCycle"); [by rewrite startImageCycle_store|].
    destruct (String.eqb _ "stopCycle"); [by rewrite stopImageCycle_store|].
    done.
  - unfold_host. cbn. by destruct (awaiting s).
  - unfold exec, tick. destruct (timers s !! id) as [t|]; [|done].
    fold (exec (showRandomImage (callbackUrls t)) s).
    by rewrite exec_showRandomImage.
  - unfold_host. cbn. by destruct (intervalId s).
Qed.

(** Every operation keeps the live timers tracked by the handle. *)
Lemma step_tracked (op : Op) s : tracked s -> tracked (exec (step op) s).
Proof.
  intros Htr. destruct op as [| | message | | id |]; cbn [step].
  - unfold_host. cbn. by destruct (globalState s !! SETTINGS_KEY).
  - unfold_host. by cbn.
  - unfold onDidReceiveMessage.
    destruct (String.eqb _ "saveSettings") eqn:Hsave.
    { unfold_host. by cbn. }
    destruct (String.eqb _ "startCycle").
    { destruct (imageUrls (currentSettings s)) as [|u us] eqn:Hurls.
      - destruct (exec_startImageCycle_empty s Hurls) as (Hi & _ & Ht & _).
        unfold tracked, cycle_running in *. by rewrite Hi, Ht.
      - assert (Hne : imageUrls (currentSettings s) <> []) by by rewrite Hurls.
        destruct (intervalId s) as [h|] eqn:Hid.
        + destruct (exec_startImageCycle_running s h Hne Hid) as (Hi & _ & Ht & _).
          unfold tracked, cycle_running in *. by rewrite Hi, Ht.
        + rewrite exec_startImageCycle_fresh by done.
          right. exists (nextTimer s), (cycle_timer (currentSettings s)).
          split; [done|]. cbn.
          destruct Htr as [-> | (h & t & Hh & _)]; [done | congruence]. }
    destruct (String.eqb _ "stopCycle"); [|done].
    destruct (intervalId s) as [h|] eqn:Hid.
    + rewrite (exec_stopImageCycle_some s h Hid). left. cbn.
      destruct Htr as [-> | (h' & t & Hh & ->)]; [apply delete_empty|].
      assert (h' = h) as -> by congruence. apply delete_singleton_eq.
    + destruct (exec_stopImageCycle_none s Hid) as (Hi & _ & Ht & _).
      unfold tracked, cycle_running in *. by rewrite Hi, Ht.
  - unfold_host. cbn. by destruct (awaiting s).
  - unfold exec, tick. destruct (timers s !! id) as [t|]; [|done].
    fold (exec (showRandomImage (callbackUrls t)) s).
    by rewrite exec_showRandomImage.
  - unfold_host. cbn. destruct (intervalId s) as [h|] eqn:Hid; [|done].
    left. cbn.
    destruct Htr as [-> | (h' & t & Hh & ->)]; [apply delete_empty|].
    assert (h' = h) as -> by congruence. apply delete_singleton_eq.
Qed.

Lemma run_tracked (ops : list Op) s : tracked s -> tracked (run ops s).
Proof.
  revert s. induction ops as [|op ops IH]; intros s Hs; [done|].
  cbn. apply IH. by apply step_tracked.
Qed.

(** Until the teardown the handle and the live timer go together: either
    there is no cycle, or one is running. *)
Lemma step_stopped_or_running (op : Op) s :
  alive op = true ->
  cycle_stopped s \/ (exists h t, cycle_running s h t) ->
  cycle_stopped (exec (step op) s) \/
  (exists h t, cycle_running (exec (step op) s) h t).
Proof.
  intros Hop Hs.
  assert (Hsame : intervalId (exec (step op) s) = intervalId s ->
                  timers (exec (step op) s) = timers s ->
                  cycle_stopped (exec (step op) s) \/
                  (exists h t, cycle_running (exec (step op) s) h t)).
  { intros Hi Ht. unfold cycle_stopped, cycle_running in *. by rewrite Hi, Ht. }
  destruct op as [| | message | | id |]; cbn [step] in *.
  - apply Hsame; unfold_host; cbn; by destruct (globalState s !! SETTINGS_KEY).
  - apply Hsame; unfold_host; by cbn.
  - unfold onDidReceiveMessage in *.
    destruct (String.eqb _ "saveSettings").
    { apply Hsame; unfold_host; by cbn. }
    destruct (String.eqb _ "startCycle").
    { destruct (imageUrls (currentSettings s)) as [|u us] eqn:Hurls.
      - destruct (exec_startImageCycle_empty s Hurls) as (Hi & _ & Ht & _).
        by apply Hsame.
      - assert (Hne : imageUrls (currentSettings s) <> []) by by rewrite Hurls.
        destruct (intervalId s) as [h|] eqn:Hid.
        + destruct (exec_startImageCycle_running s h Hne Hid) as (Hi & _ & Ht & _).
          apply Hsame; congruence.
        + rewrite exec_startImageCycle_fresh by done.
          right. exists (nextTimer s), (cycle_timer (currentSettings s)).
          split; [done|]. cbn.
          destruct Hs as [[_ ->] | (h & t & Hh & _)]; [done | congruence]. }
    destruct (String.eqb _ "stopCycle"); [|by apply Hsame].
    destruct (intervalId s) as [h|] eqn:Hid.
    + rewrite (exec_stopImageCycle_some s h Hid). left. split; [done|]. cbn.
      destruct Hs as [[Hnone _] | (h' & t & Hh & ->)]; [congruence|].
      assert (h' = h) as -> by congruence. apply delete_singleton_eq.
    + destruct (exec_stopImageCycle_none s Hid) as (Hi & _ & Ht & _).
      apply Hsame; congruence.
  - apply Hsame; unfold_host; cbn; by destruct (awaiting s).
  - apply Hsame; unfold exec, tick; (destruct (timers s !! id) as [t|]; [|done]);
      fold (exec (showRandomImage (callbackUrls t)) s);
      by rewrite exec_showRandomImage.
  - done.
Qed.

Lemma alive_stopped_or_running (rnd : nat -> number) (ops : list Op) :
  forallb alive ops = true ->
  cycle_stopped (run ops (initial rnd)) \/
  (exists h t, cycle_running (run ops (initial rnd)) h t).
Proof.
  assert (Hinit : cycle_stopped (initial rnd) \/
                  (exists h t, cycle_running (initial rnd) h t)) by by left.
  revert Hinit. generalize (initial rnd).
  induction ops as [|op ops IH]; intros s Hs Hops; [done|].
  cbn in Hops. apply andb_prop in Hops as [Hop Hops].
  cbn [run]. apply IH; [|done]. by apply step_stopped_or_running.
Qed.

(** The teardown clears the timer and keeps the handle in [intervalId]. *)
Lemma exec_deactivate_running s h t :
  cycle_running s h t ->
  intervalId (exec deactivate s) = Some h /\ timers (exec deactivate s) = ∅ /\
  log (exec deactivate s) = log s ++ [IntervalCleared h].
Proof.
  intros [Hid Ht]. unfold_host. cbn. rewrite Hid. cbn. rewrite Ht.
  by rewrite delete_singleton_eq.
Qed.

Lemma displayed_app (evs1 evs2 : list Event) :
  displayed (evs1 ++ evs2) = displayed evs1 ++ displayed evs2.
Proof. apply omap_app. Qed.

Lemma displayed_shown (urls : list string) (r : number) :
  displayed (shown urls r) = [randomUrl urls r].
Proof. done. Qed.

(** [n] firings in a row of the live timer [h]: one draw and one image each,
    and nothing else moves. *)
Lemma run_ticks (n : nat) :
  forall (s : State) (h : handle) (t : Timer),
    timers s !! h = Some t ->
    timers (run (repeat (Tick h) n) s) = timers s /\
    intervalId (run (repeat (Tick h) n) s) = intervalId s /\
    globalState (run (repeat (Tick h) n) s) = globalState s /\
    random (run (repeat (Tick h) n) s) = random s /\
    drawn (run (repeat (Tick h) n) s) = drawn s + n /\
    displayed (log (run (repeat (Tick h) n) s)) =
      displayed (log s) ++
      map (fun k => randomUrl (callbackUrls t) (random s k)) (seq (drawn s) n).
Proof.
  induction n as [|n IH]; intros s h t Ht.
  - cbn. rewrite app_nil_r. repeat split; lia.
  - cbn [repeat run step].
    rewrite (exec_tick_live s h t Ht), exec_showRandomImage.
    set (s1 := {| intervalId := intervalId s |}).
    destruct (IH s1 h t Ht) as (H1 & H2 & H3 & H4 & H5 & H6).
    rewrite H1, H2, H3, H4, H5, H6. cbn.
    rewrite displayed_app, displayed_shown, <- app_assoc.
    repeat split; lia.
Qed.

(** A notification alone neither touches the cycle nor the screen. *)
Lemma only_logged_message (sev : Severity) (text : string) (s s' : State)
    (h : handle) (t : Timer) :
  only_logged [MessageShown sev text] s s' ->
  cycle_running s h t ->
  cycle_running s' h t /\ displayed (log s') = displayed (log s).
Proof.
  intros (Hi & _ & Ht & _ & _ & _ & _ & Hlog) [Hid Htim].
  split; [split; congruence|].
  rewrite Hlog, displayed_app. cbn. by rewrite app_nil_r.
Qed.



(** Two starts in a row: the second one only warns, and one timer is live. *)
Lemma start_twice (s : State) :
  cycle_stopped s ->
  imageUrls (currentSettings s) <> [] ->
  only_logged [MessageShown Warning "Image cycle is already running"]
    (exec startImageCycle s) (exec startImageCycle (exec startImageCycle s)) /\
  size (timers (exec startImageCycle (exec startImageCycle s))) = 1.
Proof.
  intros [Hid Ht] Hne.
  assert (Hsettings : currentSettings (exec startImageCycle s) = currentSettings s).
  { unfold currentSettings. by rewrite startImageCycle_store. }
  assert (Hwarn : only_logged
            [MessageShown Warning "Image cycle is already running"]
            (exec startImageCycle s) (exec startImageCycle (exec startImageCycle s))).
  { apply (exec_startImageCycle_running _ (nextTimer s)).
    - by rewrite Hsettings.
    - by rewrite exec_startImageCycle_fresh. }
  split; [done|].
  destruct Hwarn as (_ & _ & -> & _).
  rewrite exec_startImageCycle_fresh by done. cbn [timers].
  by rewrite Ht, insert_empty, map_size_singleton.
Qed.

End Operations.

(** *** The controller on sample inputs *)

(** Line 204 multiplies in binary64: the double nearest to one third, times
    3, rounds to 1, and the second of three URLs is shown. *)
Example third_of_three :
  randomUrl ["a"; "b"; "c"] (always_third 0) = Some "b".
Proof. reflexivity. Qed.

(** On an empty array the product is 0 and index 0 is [undefined]. *)
Example random_url_of_none : randomUrl [] (always_third 0) = None.
Proof. reflexivity. Qed.

(** Four minutes are 240000 milliseconds. *)
Example default_delay : delay (cycle_timer defaultSettings) = Number.ofZ 240000.
Proof. reflexivity. Qed.

(** A session: activation, the panel, a start, a second start, a firing, a
    save and its completion, a stop, a second stop. *)
Example session_log :
  log (run [ Activate; OpenSettings; Receive startCycleMessage;
             Receive startCycleMessage; Tick 0;
             Receive (saveSettingsMessage two_urls); SaveCompleted;
             Receive stopCycleMessage; Receive stopCycleMessage ]
         (initial always_zero)) =
  [ CommandRegistered "extension.openSettings";
    StateUpdated SETTINGS_KEY (Some defaultSettings);
    PanelCreated "imageSettings" "Image Cycle Settings";
    HtmlAssigned (SettingsHtml defaultSettings);
    ListenerAdded;
    IntervalSet 0 (Number.ofZ 240000);
    PanelCreated "imageViewer" "Full Screen Image";
    HtmlAssigned (ViewerHtml (Some "https://i.imgur.com/lBsiH4u.png"));
    MessageShown Information "Started image cycle";
    MessageShown Warning "Image cycle is already running";
    PanelCreated "imageViewer" "Full Screen Image";
    HtmlAssigned (ViewerHtml (Some "https://i.imgur.com/lBsiH4u.png"));
    StateUpdated SETTINGS_KEY (Some two_urls);
    MessageShown Information "Settings saved successfully";
    IntervalCleared 0;
    MessageShown Information "Stopped image cycle";
    MessageShown Warning "Image cycle is not running" ].
Proof. reflexivity. Qed.


(** ** The claims *)

(** C1.  At most one repeating timer is live at any time.  From the initial
    state, after any sequence of activations, openings of the settings panel,
    messages (save, start, stop or anything else), completions of saves,
    firings of timers and deactivations, the host has at most one live timer,
    and a live timer is the one whose handle [intervalId] holds. *)
Theorem at_most_one_timer (rnd : nat -> number) (ops : list Op) :
  size (timers (run ops (initial rnd))) <= 1 /\
  tracked (run ops (initial rnd)).
Proof.
  assert (Htr : tracked (run ops (initial rnd))).
  { apply run_tracked. by left. }
  split; [|done].
  destruct Htr as [-> | (h & t & _ & ->)].
  - rewrite map_size_empty. lia.
  - by rewrite map_size_singleton.
Qed.

(** C2.  With an empty [imageUrls] in the settings read from the store, a
    start shows the error message and does nothing else: no timer is set, and
    the handle, the timers and the store are as before. *)
Theorem startCycle_empty_urls (s : State) :
  imageUrls (currentSettings s) = [] ->
  only_logged
    [MessageShown Error "Please set image URLs in the settings first"]
    s (exec startImageCycle s).
Proof. apply exec_startImageCycle_empty. Qed.

Lemma startCycle_empty_urls_witness :
  imageUrls (currentSettings
               (exec (onDidReceiveMessage (saveSettingsMessage no_urls))
                  (fresh always_zero))) = [] /\
  only_logged
    [MessageShown Error "Please set image URLs in the settings first"]
    (exec (onDidReceiveMessage (saveSettingsMessage no_urls)) (fresh always_zero))
    (exec startImageCycle
       (exec (onDidReceiveMessage (saveSettingsMessage no_urls))
          (fresh always_zero))).
Proof.
  split; [reflexivity|].
  apply (startCycle_empty_urls
           (exec (onDidReceiveMessage (saveSettingsMessage no_urls))
              (fresh always_zero))).
  reflexivity.
Defined.

(** C3.  While a cycle is active and [imageUrls] is not empty, a start shows
    the warning and does nothing else: the one timer stays live, with the same
    handle, and the store is as before. *)
Theorem startCycle_while_running (s : State) (h : handle) (t : Timer) :
  cycle_running s h t ->
  imageUrls (currentSettings s) <> [] ->
  only_logged [MessageShown Warning "Image cycle is already running"]
    s (exec startImageCycle s) /\
  cycle_running (exec startImageCycle s) h t /\
  size (timers (exec startImageCycle s)) = 1.
Proof.
  intros [Hid Ht] Hne.
  pose proof (exec_startImageCycle_running s h Hne Hid) as Hlog.
  split; [done|].
  destruct Hlog as (Hi & _ & Ht' & _).
  unfold cycle_running. rewrite Hi, Ht', Ht.
  by rewrite map_size_singleton.
Qed.

Lemma startCycle_while_running_witness :
  cycle_running (exec startImageCycle (fresh always_zero)) 0
    (cycle_timer defaultSettings) /\
  only_logged [MessageShown Warning "Image cycle is already running"]
    (exec startImageCycle (fresh always_zero))
    (exec startImageCycle (exec startImageCycle (fresh always_zero))) /\
  cycle_running (exec startImageCycle (exec startImageCycle (fresh always_zero)))
    0 (cycle_timer defaultSettings) /\
  size (timers (exec startImageCycle (exec startImageCycle (fresh always_zero)))) = 1.
Proof.
  split; [split; reflexivity|].
  apply (startCycle_while_running (exec startImageCycle (fresh always_zero)) 0
           (cycle_timer defaultSettings)).
  - split; reflexivity.
  - discriminate.
Defined.

(** C4.  With no cycle, a stop shows the warning and changes nothing else.
    With a cycle active, a stop clears its timer, resets [intervalId] to
    [undefined] and shows the success message; the store is untouched. *)
Theorem stopCycle_spec (s : State) :
  (cycle_stopped s ->
   only_logged [MessageShown Warning "Image cycle is not running"]
     s (exec stopImageCycle s)) /\
  (forall h t,
     cycle_running s h t ->
     cycle_stopped (exec stopImageCycle s) /\
     globalState (exec stopImageCycle s) = globalState s /\
     log (exec stopImageCycle s) =
       log s ++ [IntervalCleared h;
                 MessageShown Information "Stopped image cycle"]).
Proof.
  split.
  - intros [Hid _]. by apply exec_stopImageCycle_none.
  - intros h t [Hid Ht]. rewrite (exec_stopImageCycle_some s h Hid).
    unfold cycle_stopped. cbn. rewrite Ht.
    split; [split; [done | apply delete_singleton_eq] | done].
Qed.

Lemma stopCycle_spec_witness :
  (cycle_stopped (fresh always_zero) /\
   only_logged [MessageShown Warning "Image cycle is not running"]
     (fresh always_zero) (exec stopImageCycle (fresh always_zero))) /\
  (cycle_running (exec startImageCycle (fresh always_zero)) 0
     (cycle_timer defaultSettings) /\
   cycle_stopped (exec stopImageCycle (exec startImageCycle (fresh always_zero)))).
Proof.
  split.
  - split; [split; reflexivity|].
    apply (proj1 (stopCycle_spec (fresh always_zero))). split; reflexivity.
  - split; [split; reflexivity|].
    apply (proj2 (stopCycle_spec (exec startImageCycle (fresh always_zero)))
             0 (cycle_timer defaultSettings)).
    split; reflexivity.
Defined.

(** C5.  Activation writes the built-in default (the six fixed URLs, every
    four minutes) when the store has no settings, and leaves the store alone
    when it has some, whatever they are: settings the user saved survive the
    next activation. *)
Theorem activate_defaults_once (s : State) :
  (globalState s !! SETTINGS_KEY = None ->
   globalState (exec activate s) =
     <[SETTINGS_KEY := defaultSettings]> (globalState s)) /\
  (forall v, globalState s !! SETTINGS_KEY = Some v ->
             globalState (exec activate s) = globalState s) /\
  (forall v, currentSettings
               (exec activate
                  (exec (onDidReceiveMessage (saveSettingsMessage v)) s)) = v) /\
  length (imageUrls defaultSettings) = 6 /\
  intervalMinutes defaultSettings = Number.ofZ 4.
Proof.
  split; [|split; [|split; [|done]]].
  - intros Hnone. unfold_host. cbn. by rewrite Hnone.
  - intros v Hsome. unfold_host. cbn. by rewrite Hsome.
  - intros v. rewrite exec_save by done.
    unfold currentSettings. unfold_host. cbn.
    rewrite lookup_insert_eq. cbn. by rewrite lookup_insert_eq.
Qed.

Lemma activate_defaults_once_witness :
  (globalState (initial always_zero) !! SETTINGS_KEY = None /\
   globalState (exec activate (initial always_zero)) =
     <[SETTINGS_KEY := defaultSettings]> (globalState (initial always_zero))) /\
  (globalState (exec (onDidReceiveMessage (saveSettingsMessage two_urls))
                  (fresh always_zero)) !! SETTINGS_KEY = Some two_urls /\
   globalState (exec activate
                  (exec (onDidReceiveMessage (saveSettingsMessage two_urls))
                     (fresh always_zero))) =
   globalState (exec (onDidReceiveMessage (saveSettingsMessage two_urls))
                  (fresh always_zero))).
Proof.
  split.
  - split; [reflexivity|].
    apply (proj1 (activate_defaults_once (initial always_zero))). reflexivity.
  - split; [reflexivity|].
    apply (proj1 (proj2 (activate_defaults_once
                           (exec (onDidReceiveMessage (saveSettingsMessage two_urls))
                              (fresh always_zero)))) two_urls).
    reflexivity.
Defined.

(** C6.  Saving then reading gives back what was saved.  After a
    [saveSettings] message carrying [v], the store holds [v] in place of
    whatever it held (no merge), and the read that [startImageCycle] and
    [openSettings] make returns exactly [v], at once and after any further
    operations that are not saves. *)
Theorem save_then_read (s : State) (v : Settings) (ops : list Op) :
  forallb (fun op => negb (is_save op)) ops = true ->
  globalState (exec (onDidReceiveMessage (saveSettingsMessage v)) s) =
    <[SETTINGS_KEY := v]> (globalState s) /\
  fst (globalState_get_default SETTINGS_KEY defaultSettings
         (run ops (exec (onDidReceiveMessage (saveSettingsMessage v)) s))) = v.
Proof.
  intros Hops. rewrite exec_save by done. cbn [settings saveSettingsMessage globalState].
  split; [done|].
  set (s1 := {| intervalId := intervalId s |}).
  assert (Hs1 : globalState s1 !! SETTINGS_KEY = Some v) by apply lookup_insert_eq.
  clearbody s1.
  assert (Hrun : globalState (run ops s1) !! SETTINGS_KEY = Some v).
  { revert s1 Hs1. induction ops as [|op ops IH]; intros s1 Hs1; [done|].
    cbn in Hops. apply andb_prop in Hops as [Hop Hops].
    cbn [run]. apply IH; [done|].
    apply step_keeps_settings; [|done]. by apply negb_true_iff. }
  unfold globalState_get_default. cbn. by rewrite Hrun.
Qed.

Lemma save_then_read_witness :
  forallb (fun op => negb (is_save op))
    [Receive startCycleMessage; Tick 0; OpenSettings; Activate;
     Receive stopCycleMessage] = true /\
  globalState (exec (onDidReceiveMessage (saveSettingsMessage two_urls))
                 (fresh always_zero)) =
    <[SETTINGS_KEY := two_urls]> (globalState (fresh always_zero)) /\
  fst (globalState_get_default SETTINGS_KEY defaultSettings
         (run [Receive startCycleMessage; Tick 0; OpenSettings; Activate;
               Receive stopCycleMessage]
            (exec (onDidReceiveMessage (saveSettingsMessage two_urls))
               (fresh always_zero)))) = two_urls.
Proof.
  split; [reflexivity|].
  apply (save_then_read (fresh always_zero) two_urls
           [Receive startCycleMessage; Tick 0; OpenSettings; Activate;
            Receive stopCycleMessage]).
  reflexivity.
Defined.

(** C7, as the code has it.  A start with a non-empty [imageUrls] and no
    cycle active first sets the repeating timer, with delay
    [intervalMinutes * 60 * 1000] and a callback that shows a random image of
    the list just read, then shows one random image, then reports success;
    the timer is live under the handle [intervalId] now holds, and each of
    its firings draws a number and shows the image at that index.  For a
    whole number of minutes the delay is that number of milliseconds, with no
    rounding. *)
Theorem startCycle_schedules_then_displays (s : State) :
  cycle_stopped s ->
  imageUrls (currentSettings s) <> [] ->
  log (exec startImageCycle s) =
    log s ++
    [ IntervalSet (nextTimer s)
        (Number.mul (Number.mul (intervalMinutes (currentSettings s))
                       (Number.ofZ 60)) (Number.ofZ 1000));
      PanelCreated "imageViewer" "Full Screen Image";
      HtmlAssigned (ViewerHtml (randomUrl (imageUrls (currentSettings s))
                                  (random s (drawn s))));
      MessageShown Information "Started image cycle" ] /\
  cycle_running (exec startImageCycle s) (nextTimer s)
    (cycle_timer (currentSettings s)) /\
  (forall s', timers s' !! nextTimer s = Some (cycle_timer (currentSettings s)) ->
              log (exec (tick (nextTimer s)) s') =
                log s' ++
                [ PanelCreated "imageViewer" "Full Screen Image";
                  HtmlAssigned
                    (ViewerHtml (randomUrl (imageUrls (currentSettings s))
                                   (random s' (drawn s')))) ]) /\
  (forall minutes : Z,
     (1 <= minutes <= 2 ^ 31)%Z ->
     intervalMinutes (currentSettings s) = Number.ofZ minutes ->
     delay (cycle_timer (currentSettings s)) =
       Number.ofZ (minutes * 60 * 1000)).
Proof.
  intros [Hid Ht] Hne. rewrite exec_startImageCycle_fresh by done.
  split; [done|]. split; [|split].
  - split; [done|]. cbn. by rewrite Ht.
  - intros s' Hs'. by rewrite (exec_tick_live s' _ _ Hs'), exec_showRandomImage.
  - intros minutes Hm Hiv. cbn [cycle_timer delay]. rewrite Hiv.
    by apply NumberFacts.minutes_to_ms.
Qed.

Lemma startCycle_schedules_then_displays_witness :
  cycle_stopped (fresh always_third) /\
  imageUrls (currentSettings (fresh always_third)) = defaultImages /\
  log (exec startImageCycle (fresh always_third)) =
    log (fresh always_third) ++
    [ IntervalSet 0 (Number.ofZ 240000);
      PanelCreated "imageViewer" "Full Screen Image";
      HtmlAssigned (ViewerHtml (Some "https://i.imgur.com/oL0mqN5.png"));
      MessageShown Information "Started image cycle" ] /\
  cycle_running (exec startImageCycle (fresh always_third)) 0
    (cycle_timer defaultSettings).
Proof.
  split; [split; reflexivity|]. split; [reflexivity|].
  destruct (startCycle_schedules_then_displays (fresh always_third))
    as (Hlog & Hrun & _ & _).
  - split; reflexivity.
  - discriminate.
  - split; [exact Hlog | exact Hrun].
Defined.

(** C7, as the spec words it, fails: on a freshly activated extension the
    start is accepted, and its host calls are the [setInterval], then the
    panel of the first image, then the success message: the image does not
    come before the scheduling. *)
Lemma startCycle_display_not_first :
  cycle_stopped (fresh always_zero) /\
  imageUrls (currentSettings (fresh always_zero)) = defaultImages /\
  drop (length (log (fresh always_zero)))
    (log (exec startImageCycle (fresh always_zero))) =
    [ IntervalSet 0 (Number.ofZ 240000);
      PanelCreated "imageViewer" "Full Screen Image";
      HtmlAssigned (ViewerHtml (Some "https://i.imgur.com/lBsiH4u.png"));
      MessageShown Information "Started image cycle" ] /\
  displays_before_scheduling
    (drop (length (log (fresh always_zero)))
       (log (exec startImageCycle (fresh always_zero)))) = false.
Proof. repeat split. Qed.

(** C8.  What is shown is [imageUrls[Math.floor(r * imageUrls.length)]] for
    the draws [r] of the random source, one draw for the image shown at the
    start and one per firing of the timer.  With a source whose every draw
    floors to index 0, the start and all firings show [imageUrls[0]]. *)
Theorem shows_url_at_drawn_index (s : State) (n : nat) :
  cycle_stopped s ->
  imageUrls (currentSettings s) <> [] ->
  displayed (log (run (repeat (Tick (nextTimer s)) n) (exec startImageCycle s))) =
    displayed (log s) ++
    map (fun k => array_get (imageUrls (currentSettings s))
                    (Number.floor
                       (Number.mul (random s k)
                          (array_length (imageUrls (currentSettings s))))))
      (seq (drawn s) (S n)) /\
  ((forall k, Number.floor
                (Number.mul (random s k)
                   (array_length (imageUrls (currentSettings s)))) = Some 0%Z) ->
   is_Some (imageUrls (currentSettings s) !! 0) /\
   displayed (log (run (repeat (Tick (nextTimer s)) n) (exec startImageCycle s))) =
     displayed (log s) ++ repeat (imageUrls (currentSettings s) !! 0) (S n)).
Proof.
  intros [Hid Ht] Hne.
  set (urls := imageUrls (currentSettings s)) in *.
  assert (Hshown :
    displayed (log (run (repeat (Tick (nextTimer s)) n) (exec startImageCycle s))) =
    displayed (log s) ++ map (fun k => randomUrl urls (random s k))
                           (seq (drawn s) (S n))).
  { rewrite exec_startImageCycle_fresh by done. fold urls.
    set (s1 := {| intervalId := Some (nextTimer s) |}).
    destruct (run_ticks n s1 (nextTimer s) (cycle_timer (currentSettings s)))
      as (_ & _ & _ & _ & _ & Hd).
    { apply lookup_insert_eq. }
    rewrite Hd. cbn [s1 log drawn random cycle_timer callbackUrls].
    rewrite displayed_app. cbn [displayed omap shown app].
    rewrite <- app_assoc. done. }
  split; [exact Hshown|].
  intros Hzero. split.
  - destruct urls; [done | by eexists].
  - rewrite Hshown. f_equal.
    generalize (drawn s). generalize (S n). clear -Hzero.
    intros m. induction m as [|m IH]; intros d; [done|].
    cbn [seq map repeat]. rewrite IH. f_equal.
    unfold randomUrl. fold urls. by rewrite Hzero.
Qed.

Lemma shows_url_at_drawn_index_witness :
  cycle_stopped
    (exec (onDidReceiveMessage (saveSettingsMessage two_urls)) (fresh always_zero)) /\
  displayed
    (log (run (repeat (Tick 0) 3)
            (exec startImageCycle
               (exec (onDidReceiveMessage (saveSettingsMessage two_urls))
                  (fresh always_zero))))) =
    [Some "a"; Some "a"; Some "a"; Some "a"].
Proof.
  split; [split; reflexivity|].
  destruct (shows_url_at_drawn_index
              (exec (onDidReceiveMessage (saveSettingsMessage two_urls))
                 (fresh always_zero)) 3) as [_ Hzero].
  - split; reflexivity.
  - discriminate.
  - destruct Hzero as [_ Hshown]; [reflexivity|]. exact Hshown.
Defined.

(** C9.  For a non-empty array and a draw [r] of [Math.random()], a double
    with [0 <= r < 1], the index [Math.floor(r * imageUrls.length)] lies in
    [[0, imageUrls.length)], so the access of line 204 yields an element of
    the array, never [undefined].  The product is the rounded binary64 one. *)
Theorem random_index_in_bounds (imageUrls : list string) (r : number) :
  imageUrls <> [] ->
  (Z.of_nat (length imageUrls) <= Number.MAX_ARRAY_LENGTH)%Z ->
  Number.unit_interval r = true ->
  exists (i : Z) (url : string),
    Number.floor (Number.mul r (array_length imageUrls)) = Some i /\
    (0 <= i < Z.of_nat (length imageUrls))%Z /\
    randomUrl imageUrls r = Some url /\
    imageUrls !! Z.to_nat i = Some url /\
    url ∈ imageUrls.
Proof.
  intros Hne Hmax Hr.
  destruct (NumberFacts.floor_random_times_length r (Z.of_nat (length imageUrls)))
    as (i & Hi & Hrange); [done | |].
  { destruct imageUrls; [done | cbn [length] in *; lia]. }
  destruct (lookup_lt_is_Some_2 imageUrls (Z.to_nat i)) as [url Hurl]; [lia|].
  exists i, url. split; [done|]. split; [done|].
  assert (Hget : randomUrl imageUrls r = Some url).
  { unfold randomUrl, array_length. rewrite Hi. cbn [array_get].
    destruct (Z.ltb_spec i 0); [lia | done]. }
  split; [done|]. split; [done|]. by eapply list_elem_of_lookup_2.
Qed.

Lemma random_index_in_bounds_witness :
  exists (i : Z) (url : string),
    Number.floor (Number.mul (always_third 0) (array_length ["a"; "b"; "c"])) = Some i /\
    (0 <= i < Z.of_nat (length ["a"; "b"; "c"]))%Z /\
    randomUrl ["a"; "b"; "c"] (always_third 0) = Some url /\
    ["a"; "b"; "c"] !! Z.to_nat i = Some url /\
    url ∈ ["a"; "b"; "c"].
Proof.
  apply (random_index_in_bounds ["a"; "b"; "c"] (always_third 0)).
  - discriminate.
  - vm_compute. discriminate.
  - reflexivity.
Defined.

(** C10.  A running cycle keeps the settings it was started with.  While the
    cycle of timer [t] runs, a [saveSettings] message replaces the stored
    settings and touches neither the timer nor the screen; and through any
    sequence of operations without a [stopCycle] message or the teardown
    (saves with any contents, completions of saves, openings of the settings
    panel, firings of timers, even further [startCycle] messages), [t], with
    its list of URLs and its delay, stays the one live timer under the same
    handle, and every image shown meanwhile is taken from the list [t] was
    set with. *)
Theorem running_cycle_keeps_snapshot (s : State) (h : handle) (t : Timer)
    (ops : list Op) :
  cycle_running s h t ->
  forallb while_running ops = true ->
  (forall v,
     cycle_running (exec (onDidReceiveMessage (saveSettingsMessage v)) s) h t /\
     globalState (exec (onDidReceiveMessage (saveSettingsMessage v)) s) =
       <[SETTINGS_KEY := v]> (globalState s) /\
     displayed (log (exec (onDidReceiveMessage (saveSettingsMessage v)) s)) =
       displayed (log s)) /\
  cycle_running (run ops s) h t /\
  exists rs : list number,
    displayed (log (run ops s)) =
      displayed (log s) ++ map (randomUrl (callbackUrls t)) rs.
Proof.
  intros Hrun0 Hops0. split.
  { intros v. rewrite exec_save by done. split; [done|]. split; [done|].
    cbn [log]. rewrite displayed_app. cbn. by rewrite app_nil_r. }
  revert s Hrun0 Hops0. induction ops as [|op ops IH]; intros s Hrun Hops.
  { split; [done|]. exists []. cbn. by rewrite app_nil_r. }
  cbn in Hops. apply andb_prop in Hops as [Hop Hops]. cbn [run].
  assert (Hstep : cycle_running (exec (step op) s) h t /\
                  exists rs, displayed (log (exec (step op) s)) =
                             displayed (log s) ++ map (randomUrl (callbackUrls t)) rs).
  { assert (Hquiet : forall s',
              cycle_running s' h t /\ displayed (log s') = displayed (log s) ->
              cycle_running s' h t /\
              exists rs, displayed (log s') =
                         displayed (log s) ++ map (randomUrl (callbackUrls t)) rs).
    { intros s' [Hc Hd]. split; [done|]. exists []. cbn. by rewrite app_nil_r. }
    pose proof Hrun as [Hid Ht].
    destruct op as [| | message | | id |]; cbn [step].
    - apply Hquiet. unfold_host. cbn.
      destruct (globalState s !! SETTINGS_KEY); cbn; (split; [done|]);
        rewrite !displayed_app; cbn; by rewrite !app_nil_r.
    - apply Hquiet. unfold_host. cbn. split; [done|].
      rewrite !displayed_app. cbn. by rewrite !app_nil_r.
    - cbn in Hop. apply negb_true_iff in Hop.
      destruct (String.eqb (command message) "saveSettings") eqn:Hsave.
      { apply Hquiet. rewrite exec_save by done. split; [done|].
        cbn [log]. rewrite displayed_app. cbn. by rewrite app_nil_r. }
      unfold onDidReceiveMessage. rewrite Hsave, Hop.
      destruct (String.eqb _ "startCycle"); [|by apply Hquiet].
      apply Hquiet.
      destruct (imageUrls (currentSettings s)) as [|u us] eqn:Hurls.
      + eapply only_logged_message; [|done].
        by apply exec_startImageCycle_empty.
      + eapply only_logged_message; [|done].
        apply (exec_startImageCycle_running s h); [by rewrite Hurls | done].
    - apply Hquiet. unfold_host. cbn. destruct (awaiting s); cbn; [done|].
      split; [done|]. rewrite displayed_app. cbn. by rewrite app_nil_r.
    - destruct (decide (id = h)) as [-> | Hneq].
      + rewrite (exec_tick_live s h t), exec_showRandomImage
          by (rewrite Ht; apply lookup_singleton_eq).
        split; [done|]. exists [random s (drawn s)]. cbn [log].
        by rewrite displayed_app.
      + rewrite exec_tick_dead by (rewrite Ht; by apply lookup_singleton_ne).
        by apply Hquiet.
    - done. }
  destruct Hstep as [Hrun' (rs1 & Hrs1)].
  destruct (IH (exec (step op) s) Hrun' Hops) as [Hfin (rs2 & Hrs2)].
  split; [done|]. exists (rs1 ++ rs2).
  by rewrite Hrs2, Hrs1, map_app, app_assoc.
Qed.

Lemma running_cycle_keeps_snapshot_witness :
  cycle_running (exec startImageCycle (fresh always_zero)) 0
    (cycle_timer defaultSettings) /\
  forallb while_running
    [Receive (saveSettingsMessage two_urls); SaveCompleted; Tick 0;
     Receive startCycleMessage; Tick 0] = true /\
  currentSettings
    (run [Receive (saveSettingsMessage two_urls); SaveCompleted; Tick 0;
          Receive startCycleMessage; Tick 0]
       (exec startImageCycle (fresh always_zero))) = two_urls /\
  cycle_running
    (run [Receive (saveSettingsMessage two_urls); SaveCompleted; Tick 0;
          Receive startCycleMessage; Tick 0]
       (exec startImageCycle (fresh always_zero)))
    0 (cycle_timer defaultSettings).
Proof.
  split; [split; reflexivity|]. split; [reflexivity|]. split; [reflexivity|].
  destruct (running_cycle_keeps_snapshot
              (exec startImageCycle (fresh always_zero)) 0
              (cycle_timer defaultSettings)
              [Receive (saveSettingsMessage two_urls); SaveCompleted; Tick 0;
               Receive startCycleMessage; Tick 0]) as (_ & Hrun & _).
  - split; reflexivity.
  - reflexivity.
  - exact Hrun.
Defined.

(** ** More of the code

    What follows covers the parts of [extension.ts] the claims above do not
    reach: restarts, what happens while no timer is live, the bookkeeping of
    panels, draws and save notifications, the teardown, saves that carry no
    settings, intervals of any sign, and the script of the settings form. *)

(** *** Products of signed integers *)

Module NumberSigns.
Import Number.
Local Open Scope Z_scope.




End NumberSigns.

(** *** Bookkeeping of one operation *)

Section Bookkeeping.
Implicit Types (s : State) (op : Op) (evs : list Event).

Lemma count_if_app {A : Type} (p : A -> bool) (l1 l2 : list A) :
  count_if p (l1 ++ l2) = count_if p l1 + count_if p l2.
Proof. induction l1 as [|x l1 IH]; cbn; [done | rewrite IH; lia]. Qed.

Lemma accounted_only_logged op s s' evs :
  only_logged evs s s' ->
  is_save op = false ->
  displayed evs = [] ->
  count_if is_viewer_panel evs = 0 ->
  count_if is_save_notice evs = 0 ->
  accounted op s s' evs.
Proof.
  intros (_ & _ & _ & _ & Ha & _ & Hd & Hlog) Hop Hdis Hpan Hnot.
  unfold accounted. rewrite Hop, Hdis, Hpan, Hnot, Ha, Hd. cbn.
  repeat split; [done | lia..].
Qed.

Lemma accounted_showRandomImage op s (urls : list string) :
  is_save op = false ->
  accounted op s (exec (showRandomImage urls) s) (shown urls (random s (drawn s))).
Proof.
  intros Hop. rewrite exec_showRandomImage. unfold accounted.
  rewrite Hop. cbn. repeat split; lia.
Qed.

Lemma step_accounted op s :
  exists evs, accounted op s (exec (step op) s) evs.
Proof.
  destruct op as [| | message | | id |]; cbn [step].
  - destruct (globalState s !! SETTINGS_KEY) as [v|] eqn:Hv.
    + exists [CommandRegistered "extension.openSettings"].
      unfold accounted. unfold_host. cbn. rewrite Hv. cbn.
      repeat split; lia.
    + exists [CommandRegistered "extension.openSettings";
              StateUpdated SETTINGS_KEY (Some defaultSettings)].
      unfold accounted. unfold_host. cbn. rewrite Hv. cbn.
      rewrite <- app_assoc. repeat split; lia.
  - eexists. unfold accounted. unfold_host. cbn [snd log drawn awaiting].
    split; [by rewrite <- !app_assoc|]. cbn. repeat split; lia.
  - destruct (String.eqb (command message) "saveSettings") eqn:Hsave.
    { exists [StateUpdated SETTINGS_KEY (settings message)].
      rewrite (exec_save s message Hsave). unfold accounted.
      cbn [is_save]. rewrite Hsave. cbn. repeat split; lia. }
    unfold onDidReceiveMessage. rewrite Hsave.
    destruct (String.eqb _ "startCycle").
    { destruct (imageUrls (currentSettings s)) as [|u us] eqn:Hurls.
      - eexists. apply accounted_only_logged;
          [by apply exec_startImageCycle_empty | by cbn | done..].
      - assert (Hne : imageUrls (currentSettings s) <> []) by by rewrite Hurls.
        destruct (intervalId s) as [h|] eqn:Hid.
        + eexists. apply accounted_only_logged;
            [by apply (exec_startImageCycle_running s h) | by cbn | done..].
        + eexists. rewrite exec_startImageCycle_fresh by done.
          unfold accounted. cbn [log drawn awaiting is_save].
          split; [done|]. rewrite Hsave. cbn. repeat split; lia. }
    destruct (String.eqb _ "stopCycle").
    { destruct (intervalId s) as [h|] eqn:Hid.
      - eexists. rewrite (exec_stopImageCycle_some s h Hid).
        unfold accounted. cbn [log drawn awaiting is_save].
        split; [done|]. rewrite Hsave. cbn. repeat split; lia.
      - eexists. apply accounted_only_logged;
          [by apply exec_stopImageCycle_none | by cbn | done..]. }
    exists []. unfold accounted. cbn [is_save]. rewrite Hsave. cbn.
    rewrite app_nil_r. repeat split; lia.
  - destruct (awaiting s) as [|n] eqn:Hn.
    + exists []. unfold accounted. unfold_host. cbn. rewrite Hn. cbn.
      rewrite app_nil_r. repeat split; lia.
    + exists [MessageShown Information "Settings saved successfully"].
      unfold accounted. unfold_host. cbn. rewrite Hn. cbn.
      repeat split; lia.
  - destruct (timers s !! id) as [t|] eqn:Ht.
    + eexists. rewrite (exec_tick_live s id t Ht).
      by apply accounted_showRandomImage.
    + exists []. rewrite (exec_tick_dead s id Ht).
      unfold accounted. cbn. rewrite app_nil_r. repeat split; lia.
  - destruct (intervalId s) as [h|] eqn:Hid.
    + exists [IntervalCleared h]. unfold accounted. unfold_host. cbn.
      rewrite Hid. cbn. repeat split; lia.
    + exists []. unfold accounted. unfold_host. cbn. rewrite Hid. cbn.
      rewrite app_nil_r. repeat split; lia.
Qed.

(** The same over a run. *)
Lemma run_accounted (ops : list Op) s :
  drawn (run ops s) + length (displayed (log s)) =
    drawn s + length (displayed (log (run ops s))) /\
  count_if is_viewer_panel (log (run ops s)) + length (displayed (log s)) =
    count_if is_viewer_panel (log s) + length (displayed (log (run ops s))) /\
  count_if is_save_notice (log (run ops s)) + awaiting (run ops s) =
    count_if is_save_notice (log s) + awaiting s + count_if is_save ops.
Proof.
  revert s. induction ops as [|op ops IH]; intros s; [cbn; lia|].
  cbn [run count_if].
  destruct (step_accounted op s) as (evs & Hlog & Hd & Hp & Hn).
  destruct (IH (exec (step op) s)) as (IH1 & IH2 & IH3).
  rewrite Hlog, displayed_app, length_app, count_if_app in *.
  repeat split; lia.
Qed.

(** With no live timer, an operation other than a [startCycle] message sets
    none and shows no image. *)
Lemma step_idle op s :
  timers s = ∅ ->
  no_start op = true ->
  timers (exec (step op) s) = ∅ /\
  drawn (exec (step op) s) = drawn s /\
  displayed (log (exec (step op) s)) = displayed (log s).
Proof.
  intros Ht Hop.
  assert (Hlogged : forall s' evs,
            only_logged evs s s' -> displayed evs = [] ->
            timers s' = ∅ /\ drawn s' = drawn s /\
            displayed (log s') = displayed (log s)).
  { intros s' evs (_ & _ & Ht' & _ & _ & _ & Hd & Hlog) Hdis.
    rewrite Ht', Hd, Hlog, displayed_app, Hdis, app_nil_r. by rewrite Ht. }
  destruct op as [| | message | | id |]; cbn [step] in *.
  - unfold_host. cbn.
    destruct (globalState s !! SETTINGS_KEY); cbn;
      rewrite ?displayed_app; cbn; by rewrite ?app_nil_r.
  - unfold_host. cbn. rewrite !displayed_app. cbn. by rewrite !app_nil_r.
  - destruct (String.eqb (command message) "saveSettings") eqn:Hsave.
    { rewrite (exec_save s message Hsave). cbn. rewrite displayed_app. cbn.
      by rewrite app_nil_r. }
    unfold onDidReceiveMessage. rewrite Hsave.
    apply negb_true_iff in Hop. rewrite Hop.
    destruct (String.eqb _ "stopCycle"); [|by cbn].
    destruct (intervalId s) as [h|] eqn:Hid.
    + rewrite (exec_stopImageCycle_some s h Hid). cbn.
      rewrite Ht, displayed_app. cbn. rewrite app_nil_r.
      split; [apply delete_empty | done].
    + eapply Hlogged; [by apply exec_stopImageCycle_none | done].
  - unfold_host. cbn. destruct (awaiting s); cbn; [done|].
    rewrite displayed_app. cbn. by rewrite app_nil_r.
  - rewrite exec_tick_dead; [done|]. by rewrite Ht.
  - unfold_host. cbn. destruct (intervalId s) as [h|]; cbn; [|done].
    rewrite Ht, displayed_app. cbn. rewrite app_nil_r.
    split; [apply delete_empty | done].
Qed.

End Bookkeeping.

(** *** Properties *)

(** X1.  Settings saved while a cycle runs take effect at the next restart:
    after a save of [v] with at least one URL, a stop and a start, the one
    live timer is the one for [v], under a fresh handle, and the image put on
    screen is drawn from the URLs of [v]. *)
Theorem restart_uses_saved_settings (s : State) (h : handle) (t : Timer)
    (v : Settings) :
  cycle_running s h t ->
  imageUrls v <> [] ->
  let s' := run [Receive (saveSettingsMessage v); Receive stopCycleMessage;
                 Receive startCycleMessage] s in
  cycle_running s' (nextTimer s) (cycle_timer v) /\
  currentSettings s' = v /\
  displayed (log s') =
    displayed (log s) ++ [randomUrl (imageUrls v) (random s (drawn s))].
Proof.
  intros [Hid Ht] Hne s'. subst s'. cbn [run step].
  change (onDidReceiveMessage stopCycleMessage) with stopImageCycle.
  change (onDidReceiveMessage startCycleMessage) with startImageCycle.
  rewrite (exec_save s (saveSettingsMessage v)) by done.
  cbn [settings saveSettingsMessage].
  set (s1 := {| intervalId := intervalId s |}).
  rewrite (exec_stopImageCycle_some s1 h) by done.
  set (s2 := {| intervalId := None |}).
  assert (Hv : currentSettings s2 = v).
  { unfold currentSettings. cbn. by rewrite lookup_insert_eq. }
  rewrite exec_startImageCycle_fresh; [|by rewrite Hv | done].
  rewrite Hv. unfold cycle_running, currentSettings. cbn.
  rewrite Ht, delete_singleton_eq, insert_empty, lookup_insert_eq.
  rewrite !displayed_app. cbn. by rewrite !app_nil_r.
Qed.

Lemma restart_uses_saved_settings_witness :
  cycle_running (exec startImageCycle (fresh always_third)) 0
    (cycle_timer defaultSettings) /\
  imageUrls two_urls <> [] /\
  let s' := run [Receive (saveSettingsMessage two_urls);
                 Receive stopCycleMessage; Receive startCycleMessage]
              (exec startImageCycle (fresh always_third)) in
  cycle_running s' 1 (cycle_timer two_urls) /\
  currentSettings s' = two_urls /\
  displayed (log s') =
    displayed (log (exec startImageCycle (fresh always_third))) ++
    [randomUrl (imageUrls two_urls) (always_third 1)].
Proof.
  split; [split; reflexivity|]. split; [discriminate|].
  apply (restart_uses_saved_settings (exec startImageCycle (fresh always_third))
           0 (cycle_timer defaultSettings) two_urls).
  - split; reflexivity.
  - discriminate.
Defined.

(** X2.  While no timer is live, nothing but a [startCycle] message brings an
    image up: whatever else happens (saves, stops, late firings of cleared
    timers, openings of the form, the teardown), in any order, no timer is
    set, no random number is drawn and no image is shown. *)
Theorem no_image_without_start (s : State) (ops : list Op) :
  timers s = ∅ ->
  forallb no_start ops = true ->
  timers (run ops s) = ∅ /\
  drawn (run ops s) = drawn s /\
  displayed (log (run ops s)) = displayed (log s).
Proof.
  revert s. induction ops as [|op ops IH]; intros s Ht Hops; [done|].
  cbn in Hops. apply andb_prop in Hops as [Hop Hops]. cbn [run].
  destruct (step_idle op s Ht Hop) as (Ht1 & Hd1 & Hl1).
  destruct (IH _ Ht1 Hops) as (Ht2 & Hd2 & Hl2).
  repeat split; congruence.
Qed.

Lemma no_image_without_start_witness :
  let s := run [Receive startCycleMessage; Receive stopCycleMessage]
             (fresh always_third) in
  let ops := [Tick 0; Receive (saveSettingsMessage two_urls); SaveCompleted;
              Receive stopCycleMessage; OpenSettings; Tick 0; Deactivate] in
  timers s = ∅ /\ forallb no_start ops = true /\
  timers (run ops s) = ∅ /\
  drawn (run ops s) = drawn s /\
  displayed (log (run ops s)) = displayed (log s).
Proof.
  cbv zeta. split; [reflexivity|]. split; [reflexivity|].
  apply (no_image_without_start
           (run [Receive startCycleMessage; Receive stopCycleMessage]
              (fresh always_third))); reflexivity.
Defined.

(** X3.  Every image costs exactly one random draw and opens exactly one new
    viewer panel: at any moment of any session, the number of values taken
    from [Math.random], the number of [imageViewer] panels created and the
    number of images shown are equal: the code never reuses a panel. *)
Theorem one_draw_one_panel_per_image (rnd : nat -> number) (ops : list Op) :
  drawn (run ops (initial rnd)) =
    length (displayed (log (run ops (initial rnd)))) /\
  count_if is_viewer_panel (log (run ops (initial rnd))) =
    length (displayed (log (run ops (initial rnd)))).
Proof.
  destruct (run_accounted ops (initial rnd)) as (Hd & Hp & _).
  cbn in Hd, Hp. lia.
Qed.

(** X4.  The notice [Settings saved successfully] is shown once per
    [saveSettings] message whose store update has completed, never more: at
    any moment of a session, the notices shown plus the handlers still
    waiting for their update equal the [saveSettings] messages received,
    with or without a [settings] field. *)
Theorem one_notice_per_completed_save (rnd : nat -> number) (ops : list Op) :
  count_if is_save_notice (log (run ops (initial rnd))) +
    awaiting (run ops (initial rnd)) = count_if is_save ops.
Proof.
  destruct (run_accounted ops (initial rnd)) as (_ & _ & Hn).
  cbn in Hn. lia.
Qed.

(** X5.  The teardown leaves no timer behind, whatever the session was; it
    writes nothing to the store and shows nothing. *)
Theorem deactivate_releases_timer (rnd : nat -> number) (ops : list Op) :
  let s := run ops (initial rnd) in
  timers (exec deactivate s) = ∅ /\
  globalState (exec deactivate s) = globalState s /\
  displayed (log (exec deactivate s)) = displayed (log s) /\
  count_if is_save_notice (log (exec deactivate s)) =
    count_if is_save_notice (log s).
Proof.
  intros s.
  assert (Htr : tracked s) by (apply run_tracked; by left).
  unfold_host. cbn.
  destruct (intervalId s) as [h|] eqn:Hid; cbn.
  - rewrite displayed_app, count_if_app. cbn. rewrite app_nil_r.
    split; [|split; [done | split; [done | lia]]].
    destruct Htr as [-> | (h' & t & [Hh ->])]; [apply delete_empty|].
    assert (h' = h) as -> by congruence. apply delete_singleton_eq.
  - split; [|done].
    destruct Htr as [-> | (h' & t & [Hh _])]; [done | congruence].
Qed.

(** X6.  A [saveSettings] message that carries no [settings] erases the
    stored settings: from then on reads give the defaults, a start runs on
    the default images, and the next activation writes the defaults back. *)
Theorem save_without_settings_restores_defaults (s : State) (message : Message) :
  command message = "saveSettings" ->
  settings message = None ->
  let s' := exec (onDidReceiveMessage message) s in
  globalState s' !! SETTINGS_KEY = None /\
  currentSettings s' = defaultSettings /\
  globalState (exec activate s') !! SETTINGS_KEY = Some defaultSettings.
Proof.
  intros Hc Hs s'. subst s'.
  rewrite (exec_save s message) by by rewrite Hc.
  rewrite Hs. unfold currentSettings. unfold_host. cbn.
  rewrite !lookup_delete_eq. cbn. by rewrite lookup_insert_eq.
Qed.

Lemma save_without_settings_restores_defaults_witness :
  let s := exec (onDidReceiveMessage (saveSettingsMessage two_urls))
             (fresh always_zero) in
  let s' := exec (onDidReceiveMessage saveNothingMessage) s in
  currentSettings s = two_urls /\
  globalState s' !! SETTINGS_KEY = None /\
  currentSettings s' = defaultSettings /\
  globalState (exec activate s') !! SETTINGS_KEY = Some defaultSettings.
Proof.
  cbv zeta. split; [reflexivity|].
  apply (save_without_settings_restores_defaults
           (exec (onDidReceiveMessage (saveSettingsMessage two_urls))
              (fresh always_zero)) saveNothingMessage); reflexivity.
Defined.



(** *** Strings *)

Module JsStringFacts.
Import Stdlib.Strings.Ascii JsString.



Lemma trimStart_blank (s : string) : blank s = true -> trimStart s = EmptyString.
Proof.
  induction s as [|c s IH]; cbn [blank trimStart]; [done|].
  intros [Hc Hs]%andb_prop. rewrite Hc. by apply IH.
Qed.













End JsStringFacts.

(** *** The rows of the form *)

Module FormFacts.
Import JsString JsStringFacts Webview.








End FormFacts.












